(** * The date engine of [utils/date_utils.py]

    A shallow embedding of [DateFormatDetector] and [DateRangeHelper]
    together with the parts of the Python runtime they call:
    [datetime.strptime] and [strftime] for the directives [%Y], [%m], [%d],
    [re.match], [re.split], [re.findall] for the three patterns of the file,
    and [int] on text.

    Conventions.
    - A Python [str] is a [string]: the characters are the code points
      0..255.  In this range the regular-expression class [\d] is exactly
      ['0'..'9'].
    - A [datetime] built by [strptime] is naive (no format of the file has a
      [%z] directive); the fallback parser may return an aware one.
    - [dateutil.parser.parse] is a third-party function; it is a variable of
      the section [Engine] and every general statement holds whatever it
      returns. *)

From Stdlib Require Import ZArith List String Ascii Bool Lia.
Import ListNotations.

Local Open Scope string_scope.
Local Open Scope Z_scope.

(** ** Exceptions and results *)

(** The [ValueError]s of the runtime, by the message that is raised. *)
Inductive value_error : Type :=
| NoMatch (data_string : string)   (* time data %r does not match format %r *)
| Unconverted (rest : string)      (* unconverted data remains: %s *)
| OutOfRange                       (* the date constructor refused the fields *)
| InvalidLiteral (lit : string)    (* invalid literal for int() with base 10: %r *)
| TooManyDigits.                   (* exceeds the limit for integer string conversion *)

Inductive exception : Type :=
| ValueError (e : value_error)
| ParserError (timestr : string)   (* dateutil: a subclass of ValueError *)
| OverflowError (timestr : string) (* dateutil: ParserError's sibling *)
| PlaywrightError                  (* anything a page query raises *)
| TypeError.                       (* can't compare offset-naive and offset-aware datetimes *)

Inductive result (A : Type) : Type :=
| Ok (a : A)
| Raise (e : exception).

Arguments Ok {A} a.
Arguments Raise {A} e.

Definition bind {A B : Type} (r : result A) (k : A -> result B) : result B :=
  match r with
  | Ok a => k a
  | Raise e => Raise e
  end.

Notation "x <- r ;; k" := (bind r (fun x => k))
  (at level 61, r at next level, right associativity).

Definition raises {A : Type} (r : result A) : Prop := exists e, r = Raise e.

(** ** Characters *)

Definition digit_of (c : ascii) : option Z :=
  match c with
  | "9" => Some 9 | "8" => Some 8 | "7" => Some 7 | "6" => Some 6
  | "5" => Some 5 | "4" => Some 4 | "3" => Some 3 | "2" => Some 2
  | "1" => Some 1 | "0" => Some 0
  | _ => None
  end%char.

(** [\d] *)
Definition is_digit (c : ascii) : bool :=
  match digit_of c with Some _ => true | None => false end.

Definition digit_char (v : Z) : ascii :=
  match v with
  | 0 => "0" | 1 => "1" | 2 => "2" | 3 => "3" | 4 => "4"
  | 5 => "5" | 6 => "6" | 7 => "7" | 8 => "8" | _ => "9"
  end%char.

Definition newline : ascii := "010"%char.

(** ** [datetime] *)

(** A [tzinfo] object, as far as a comparison looks at it: which object it
    is, and the [utcoffset()] it gives for the [datetime] that carries it, in
    microseconds. *)
Record timezone : Type := mktz { tz_object : Z; utcoffset : Z }.

(** [tzinfo] is [None] for a naive value. *)
Record datetime : Type := mkdt {
  year : Z; month : Z; day : Z;
  hour : Z; minute : Z; second : Z; microsecond : Z;
  tzinfo : option timezone
}.

(** [datetime(y, m, d)]: midnight, naive. *)
Definition date (y m d : Z) : datetime := mkdt y m d 0 0 0 0 None.

Definition is_leap (y : Z) : bool :=
  (y mod 4 =? 0) && (negb (y mod 100 =? 0) || (y mod 400 =? 0)).

Definition days_in_month (y m : Z) : Z :=
  match m with
  | 2 => if is_leap y then 29 else 28
  | 4 | 6 | 9 | 11 => 30
  | _ => 31
  end.

(** [_check_date_fields]: MINYEAR = 1, MAXYEAR = 9999. *)
Definition check_date_fields (y m d : Z) : bool :=
  (1 <=? y) && (y <=? 9999) && (1 <=? m) && (m <=? 12) &&
  (1 <=? d) && (d <=? days_in_month y m).

Definition check_time_fields (h mi s us : Z) : bool :=
  (0 <=? h) && (h <=? 23) && (0 <=? mi) && (mi <=? 59) &&
  (0 <=? s) && (s <=? 59) && (0 <=? us) && (us <=? 999999).

(** The invariant of every [datetime] object. *)
Definition valid_datetime (dt : datetime) : bool :=
  check_date_fields (year dt) (month dt) (day dt) &&
  check_time_fields (hour dt) (minute dt) (second dt) (microsecond dt).

Definition no_time_of_day (dt : datetime) : bool :=
  (hour dt =? 0) && (minute dt =? 0) && (second dt =? 0) && (microsecond dt =? 0).

(** The seven fields that [_cmp] compares in order. *)
Definition dt_fields (dt : datetime) : list Z :=
  [year dt; month dt; day dt; hour dt; minute dt; second dt; microsecond dt].

Fixpoint lex_compare (a b : list Z) : comparison :=
  match a, b with
  | [], [] => Eq
  | [], _ :: _ => Lt
  | _ :: _, [] => Gt
  | x :: a', y :: b' =>
      match x ?= y with
      | Eq => lex_compare a' b'
      | c => c
      end
  end.

(** The comparison of the fields: what [_cmp] does for two naive values,
    and for two values of one time zone or of equal offsets. *)
Definition naive_compare (a b : datetime) : comparison :=
  lex_compare (dt_fields a) (dt_fields b).

Definition naive_le (a b : datetime) : bool :=
  match naive_compare a b with Gt => false | _ => true end.

(** [_days_before_year], [_days_before_month], [toordinal]. *)
Definition days_before_year (y : Z) : Z :=
  let p := y - 1 in p * 365 + p / 4 - p / 100 + p / 400.

Definition days_before_month (y m : Z) : Z :=
  nth (Z.to_nat m) [-1; 0; 31; 59; 90; 120; 151; 181; 212; 243; 273; 304; 334] 0
  + (if (2 <? m) && is_leap y then 1 else 0).

Definition toordinal (dt : datetime) : Z :=
  days_before_year (year dt) + days_before_month (year dt) (month dt) + day dt.

(** The instant of an aware value, in microseconds: the wall clock minus
    the offset. *)
Definition instant (dt : datetime) (tz : timezone) : Z :=
  (((toordinal dt * 24 + hour dt) * 60 + minute dt) * 60 + second dt) * 1000000
  + microsecond dt - utcoffset tz.

(** [mytz is ottz] *)
Definition same_tzinfo (a b : option timezone) : bool :=
  match a, b with
  | None, None => true
  | Some x, Some y => tz_object x =? tz_object y
  | _, _ => false
  end.

(** [datetime._cmp]: the fields when the two values have the same [tzinfo]
    or equal offsets, [TypeError] when exactly one of them is naive, else the
    sign of the difference of the instants. *)
Definition dt_compare (a b : datetime) : result comparison :=
  if same_tzinfo (tzinfo a) (tzinfo b) then Ok (naive_compare a b)
  else
    match tzinfo a, tzinfo b with
    | Some x, Some y =>
        if utcoffset x =? utcoffset y then Ok (naive_compare a b)
        else Ok (instant a x ?= instant b y)
    | _, _ => Raise TypeError
    end.

(** [a <= b] *)
Definition dt_le (a b : datetime) : result bool :=
  c <- dt_compare a b ;;
  Ok (match c with Gt => false | _ => true end).

(** Calendar comparison: year, then month, then day. *)
Definition calendar_le (a b : datetime) : bool :=
  match lex_compare [year a; month a; day a] [year b; month b; day b] with
  | Gt => false
  | _ => true
  end.

(** ** Formats *)

Inductive directive : Type := dY | dm | dd.

(** A format string: [%Y], [%m], [%d] and literal characters (none of them
    a blank, [%] or a letter: the formats of the file use [/] and [-]). *)
Inductive fmt_item : Type :=
| Dir (x : directive)
| Lit (c : ascii).

Definition format := list fmt_item.

Definition fmt_Y_m_d : format := [Dir dY; Lit "-"; Dir dm; Lit "-"; Dir dd]. (* "%Y-%m-%d" *)
Definition fmt_d_m_Y : format := [Dir dd; Lit "/"; Dir dm; Lit "/"; Dir dY]. (* "%d/%m/%Y" *)
Definition fmt_m_d_Y : format := [Dir dm; Lit "/"; Dir dd; Lit "/"; Dir dY]. (* "%m/%d/%Y" *)
Definition fmt_Ys_m_d : format := [Dir dY; Lit "/"; Dir dm; Lit "/"; Dir dd]. (* "%Y/%m/%d" *)
Definition fmt_d_m_Y_dash : format := [Dir dd; Lit "-"; Dir dm; Lit "-"; Dir dY]. (* "%d-%m-%Y" *)
Definition fmt_m_d_Y_dash : format := [Dir dm; Lit "-"; Dir dd; Lit "-"; Dir dY]. (* "%m-%d-%Y" *)

(** ** [datetime.strptime]

    [_strptime] turns the format into a regular expression, one named group
    per directive:
      [%d] is [(3[0-1]|[1-2]\d|0[1-9]|[1-9]| [1-9])],
      [%m] is [(1[0-2]|0[1-9]|[1-9])],
      [%Y] is [(\d\d\d\d)],
    matches it at the start of the text, refuses text that is left over, and
    builds the date from the groups. *)

(** A character class on digits: the digit value when it lies in [lo..hi]. *)
Definition cls (lo hi : Z) (c : ascii) : option Z :=
  match digit_of c with
  | Some v => if (lo <=? v) && (v <=? hi) then Some v else None
  | None => None
  end.

Definition blank (c : ascii) : option Z :=
  if Ascii.eqb c " " then Some 0 else None.

(** Two characters of the given classes; the group's value is [int] of them. *)
Definition seq2 (ca cb : ascii -> option Z) (s : string) : list (Z * string) :=
  match s with
  | String a (String b r) =>
      match ca a, cb b with
      | Some x, Some y => [(10 * x + y, r)]
      | _, _ => []
      end
  | _ => []
  end.

Definition seq1 (ca : ascii -> option Z) (s : string) : list (Z * string) :=
  match s with
  | String a r =>
      match ca a with
      | Some x => [(x, r)]
      | None => []
      end
  | _ => []
  end.

Definition seq4 (s : string) : list (Z * string) :=
  match s with
  | String a (String b (String c (String d r))) =>
      match digit_of a, digit_of b, digit_of c, digit_of d with
      | Some x, Some y, Some z, Some w => [(1000 * x + 100 * y + 10 * z + w, r)]
      | _, _, _, _ => []
      end
  | _ => []
  end.

(** The ways a directive's group matches a prefix of [s], in the order the
    regular-expression engine tries the alternatives: value and rest. *)
Definition alternatives (x : directive) (s : string) : list (Z * string) :=
  match x with
  | dd => seq2 (cls 3 3) (cls 0 1) s ++ seq2 (cls 1 2) (cls 0 9) s ++
          seq2 (cls 0 0) (cls 1 9) s ++ seq1 (cls 1 9) s ++
          seq2 blank (cls 1 9) s
  | dm => seq2 (cls 1 1) (cls 0 2) s ++ seq2 (cls 0 0) (cls 1 9) s ++
          seq1 (cls 1 9) s
  | dY => seq4 s
  end.

(** [found_dict], already converted with [int]. *)
Record groups : Type := mkgroups { gY : option Z; gm : option Z; gd : option Z }.

Definition no_groups : groups := mkgroups None None None.

Definition set_group (x : directive) (v : Z) (g : groups) : groups :=
  match x with
  | dY => mkgroups (Some v) (gm g) (gd g)
  | dm => mkgroups (gY g) (Some v) (gd g)
  | dd => mkgroups (gY g) (gm g) (Some v)
  end.

Fixpoint first_success {A B : Type} (f : A -> option B) (l : list A) : option B :=
  match l with
  | [] => None
  | a :: l' =>
      match f a with
      | Some b => Some b
      | None => first_success f l'
      end
  end.

(** [format_regex.match(data_string)]: the first match in backtracking
    order, with the text that is left. *)
Fixpoint re_match (fmt : format) (s : string) (g : groups) : option (groups * string) :=
  match fmt with
  | [] => Some (g, s)
  | Lit c :: fmt' =>
      match s with
      | String c' s' => if Ascii.eqb c c' then re_match fmt' s' g else None
      | EmptyString => None
      end
  | Dir x :: fmt' =>
      first_success (fun '(v, s') => re_match fmt' s' (set_group x v g))
                    (alternatives x s)
  end.

Definition or_default (o : option Z) (v : Z) : Z :=
  match o with Some x => x | None => v end.

Definition strptime (data_string : string) (fmt : format) : result datetime :=
  match re_match fmt data_string no_groups with
  | None => Raise (ValueError (NoMatch data_string))
  | Some (found, EmptyString) =>
      let y := or_default (gY found) 1900 in
      let m := or_default (gm found) 1 in
      let d := or_default (gd found) 1 in
      if check_date_fields y m d then Ok (date y m d)
      else Raise (ValueError OutOfRange)
  | Some (_, rest) => Raise (ValueError (Unconverted rest))
  end.

(** ** [strftime] *)

Definition two_digits (v : Z) : string :=
  String (digit_char (v / 10)) (String (digit_char (v mod 10)) EmptyString).

Definition four_digits (v : Z) : string :=
  String (digit_char (v / 1000)) (String (digit_char (v / 100 mod 10))
    (String (digit_char (v / 10 mod 10)) (String (digit_char (v mod 10)) EmptyString))).

Fixpoint strip_zeros (n : nat) (s : string) : string :=
  match n, s with
  | S k, String "0" s' => strip_zeros k s'
  | _, _ => s
  end.

(** [%Y]: the C library decides whether a year below 1000 is padded with
    zeros; [pad_year] says which. *)
Definition render_year (pad_year : bool) (y : Z) : string :=
  if pad_year then four_digits y else strip_zeros 3 (four_digits y).

Definition render_item (pad_year : bool) (dt : datetime) (i : fmt_item) : string :=
  match i with
  | Dir dY => render_year pad_year (year dt)
  | Dir dm => two_digits (month dt)
  | Dir dd => two_digits (day dt)
  | Lit c => String c EmptyString
  end.

Fixpoint strftime (pad_year : bool) (dt : datetime) (fmt : format) : string :=
  match fmt with
  | [] => EmptyString
  | i :: fmt' => render_item pad_year dt i ++ strftime pad_year dt fmt'
  end.

(** ** [int] on text

    Blanks are stripped on both sides, a sign may come first, and the digits
    may be grouped by single underscores.  The interpreter refuses more than
    4300 digits. *)

Definition is_space (c : ascii) : bool :=
  match c with
  | "009" | "010" | "011" | "012" | "013" | " " | "133" | "160" => true
  | _ => false
  end%char.

Fixpoint lstrip (s : string) : string :=
  match s with
  | String c s' => if is_space c then lstrip s' else s
  | EmptyString => EmptyString
  end.

(** The digits and underscores at the start of [s]: value, number of digits
    and the rest; [None] for a doubled or a trailing underscore. *)
Fixpoint scan_digits (s : string) (prev_underscore : bool) (acc : Z) (n : nat)
  : option (Z * nat * string) :=
  match s with
  | String c s' =>
      if Ascii.eqb c "_" then
        if prev_underscore then None else scan_digits s' true acc n
      else
        match digit_of c with
        | Some v => scan_digits s' false (10 * acc + v) (S n)
        | None => if prev_underscore then None else Some (acc, n, s)
        end
  | EmptyString => if prev_underscore then None else Some (acc, n, s)
  end.

Definition int_max_str_digits : nat := 4300.

Definition signed (s : string) : Z * string :=
  match s with
  | String "+" s' => (1, s')
  | String "-" s' => (-1, s')
  | _ => (1, s)
  end.

Definition py_int (lit : string) : result Z :=
  let invalid := Raise (ValueError (InvalidLiteral lit)) in
  let '(sign, body) := signed (lstrip lit) in
  match body with
  | String "_" _ => invalid
  | _ =>
      match scan_digits body false 0 0 with
      | None => invalid
      | Some (v, n, rest) =>
          match n, lstrip rest with
          | O, _ => invalid
          | _, String _ _ => invalid
          | _, EmptyString =>
              if Nat.ltb int_max_str_digits n
              then Raise (ValueError TooManyDigits)
              else Ok (sign * v)
          end
      end
  end.

(** ** [re.split(r"[/\-\.]", s)] *)

Definition is_separator (c : ascii) : bool :=
  match c with
  | "/" | "-" | "." => true
  | _ => false
  end%char.

Fixpoint re_split (s : string) : list string :=
  match s with
  | EmptyString => [EmptyString]
  | String c s' =>
      if is_separator c then EmptyString :: re_split s'
      else
        match re_split s' with
        | p :: ps => String c p :: ps
        | [] => [String c EmptyString]
        end
  end.

(** ** [re.match(r'^\d{4}-\d{2}-\d{2}$', s)]

    [$] also matches just before a newline that ends the text. *)
Definition at_end (s : string) : bool :=
  match s with
  | EmptyString => true
  | String c EmptyString => Ascii.eqb c newline
  | _ => false
  end.

(** A sequence of character classes at the start of [s]: the rest. *)
Fixpoint re_seq (classes : list (ascii -> bool)) (s : string) : option string :=
  match classes with
  | [] => Some s
  | p :: more =>
      match s with
      | String c s' => if p c then re_seq more s' else None
      | EmptyString => None
      end
  end.

Definition iso_re_match (s : string) : bool :=
  match re_seq [is_digit; is_digit; is_digit; is_digit; Ascii.eqb "-";
                is_digit; is_digit; Ascii.eqb "-"; is_digit; is_digit] s with
  | Some tl => at_end tl
  | None => false
  end.

(** ** [re.findall] for [\d{1,2}SEP\d{1,2}SEP\d{4}] *)

(** [\d{1,2}], greedy: two digits are tried before one. *)
Definition digits_1_2 (s : string) : list (string * string) :=
  match s with
  | String a (String b r) =>
      if is_digit a then
        if is_digit b
        then [(String a (String b EmptyString), r); (String a EmptyString, String b r)]
        else [(String a EmptyString, String b r)]
      else []
  | String a EmptyString =>
      if is_digit a then [(String a EmptyString, EmptyString)] else []
  | EmptyString => []
  end.

Definition digits_4 (s : string) : option (string * string) :=
  match s with
  | String a (String b (String c (String d r))) =>
      if is_digit a && is_digit b && is_digit c && is_digit d
      then Some (String a (String b (String c (String d EmptyString))), r)
      else None
  | _ => None
  end.

Definition after_sep (sep : ascii) (s : string) : option string :=
  match s with
  | String c r => if Ascii.eqb c sep then Some r else None
  | EmptyString => None
  end.

(** The match of the pattern at the start of [s], if there is one. *)
Definition match_date_at (sep : ascii) (s : string) : option string :=
  first_success (fun '(a, r1) =>
    match after_sep sep r1 with
    | None => None
    | Some r2 =>
        first_success (fun '(b, r3) =>
          match after_sep sep r3 with
          | None => None
          | Some r4 =>
              match digits_4 r4 with
              | Some (y, _) =>
                  Some (a ++ String sep b ++ String sep y)
              | None => None
              end
          end) (digits_1_2 r2)
    end) (digits_1_2 s).

(** Leftmost matches that do not overlap: after a match the scan resumes
    behind it ([skip] characters further). *)
Fixpoint findall_from (sep : ascii) (s : string) (skip : nat) : list string :=
  match s with
  | EmptyString => []
  | String _ s' =>
      match skip with
      | S k => findall_from sep s' k
      | O =>
          match match_date_at sep s with
          | Some m => m :: findall_from sep s' (String.length m - 1)
          | None => findall_from sep s' 0
          end
      end
  end.

Definition findall (sep : ascii) (text : string) : list string :=
  findall_from sep text 0.

(** ** The page, as [detect_page_date_format] queries it *)

(** [element.text_content()]: a text, [None], or an exception. *)
Definition element := result (option string).

(** [page.locator(selector).all()]: the elements, or an exception. *)
Record Page : Type := mkPage { locator_all : string -> result (list element) }.

Inductive format_hint : Type := MDY | DMY.

Definition is_DMY (h : format_hint) : bool :=
  match h with DMY => true | MDY => false end.

(** ** [DateFormatDetector] and [DateRangeHelper] *)

Section Engine.

(** Whether [%Y] pads a year below 1000 (the C library's choice). *)
Variable pad_year : bool.

(** [dateutil.parser.parse(timestr, dayfirst=...)]. *)
Variable dateutil_parse : string -> bool -> result datetime.

(** The separator of each entry of [MDY_PATTERNS]:
    [\d{1,2}/\d{1,2}/\d{4}], [\d{1,2}-\d{1,2}-\d{4}], [\d{1,2}\.\d{1,2}\.\d{4}]. *)
Definition MDY_PATTERNS : list ascii := ["/"; "-"; "."]%char.

Definition selectors : list string :=
  [ "text=/\d{1,2}[/\-\.]\d{1,2}[/\-\.]\d{4}/";
    "[class*='date']";
    "[id*='date']";
    "td:has-text('/2025')";
    "td:has-text('/2024')";
    "span:has-text('/202')" ].

(** The matches of every pattern in one text, pattern by pattern. *)
Definition text_matches (text : string) : list string :=
  flat_map (fun sep => findall sep text) MDY_PATTERNS.

(** The loop over [elements[:5]]; an exception ends it and keeps what was
    found so far. *)
Fixpoint scan_elements (elements : list element) : list string :=
  match elements with
  | [] => []
  | Raise _ :: _ => []
  | Ok text :: more =>
      match text with
      | Some (String c t) => text_matches (String c t) ++ scan_elements more
      | _ => scan_elements more
      end
  end.

Definition dates_found (page : Page) : list string :=
  flat_map (fun selector =>
    match locator_all page selector with
    | Ok elements => scan_elements (firstn 5 elements)
    | Raise _ => []
    end) selectors.

(** The loop "Analyze found dates to determine format". *)
Fixpoint analyze (found : list string) : result format_hint :=
  match found with
  | [] => Ok MDY
  | date_str :: more =>
      match re_split date_str with
      | [p0; p1; p2] =>
          first <- py_int p0 ;;
          second <- py_int p1 ;;
          third <- py_int p2 ;;
          if first >? 12 then Ok DMY
          else if second >? 12 then Ok MDY
          else analyze more
      | _ => analyze more
      end
  end.

Definition detect_page_date_format (page : Page) : result format_hint :=
  analyze (dates_found page).

(** A [for fmt in ...: try: ... strptime ... except ValueError: continue]
    loop: the first format that parses, [None] when the list is exhausted. *)
Fixpoint try_formats (date_str : string) (fmts : list format) : option (result datetime) :=
  match fmts with
  | [] => None
  | fmt :: more =>
      match strptime date_str fmt with
      | Ok dt => Some (Ok dt)
      | Raise (ValueError _) => try_formats date_str more
      | Raise e => Some (Raise e)
      end
  end.

Definition to_page_format (date_str : string) (fmt : format_hint) : string :=
  let parsed :=
    match try_formats date_str
            [fmt_d_m_Y; fmt_m_d_Y; fmt_Y_m_d; fmt_d_m_Y_dash; fmt_m_d_Y_dash] with
    | Some r => r
    | None => dateutil_parse date_str (is_DMY fmt)
    end in
  match parsed with
  | Raise _ => date_str
  | Ok dt =>
      match fmt with
      | MDY => strftime pad_year dt fmt_m_d_Y
      | DMY => strftime pad_year dt fmt_d_m_Y
      end
  end.

(** The guess "based on the string" of [parse_date]. *)
Definition guess_dayfirst (date_str : string) : result bool :=
  match re_split date_str with
  | [p0; _; _] => first <- py_int p0 ;; Ok (first >? 12)
  | _ => Ok false
  end.

Definition parse_date (date_str : string) (hint : option format_hint) : result datetime :=
  if iso_re_match date_str then strptime date_str fmt_Y_m_d
  else
    match try_formats date_str [fmt_Y_m_d; fmt_d_m_Y; fmt_m_d_Y; fmt_Ys_m_d] with
    | Some r => r
    | None =>
        dayfirst <- match hint with
                    | Some h => Ok (is_DMY h)
                    | None => guess_dayfirst date_str
                    end ;;
        dateutil_parse date_str dayfirst
    end.

Definition format_for_api (date_str : string) : result string :=
  dt <- parse_date date_str None ;;
  Ok (strftime pad_year dt fmt_Y_m_d).

Definition format_for_display (dt : datetime) (fmt : format) : string :=
  strftime pad_year dt fmt.

Definition parse_range (start_str end_str : string) : result (datetime * datetime) :=
  start <- parse_date start_str None ;;
  end_ <- parse_date end_str None ;;
  Ok (start, end_).

(** [start <= date <= end]: the second comparison only when the first
    holds; each comparison may raise. *)
Definition is_date_in_range (date_str start_str end_str : string) : result bool :=
  date_ <- parse_date date_str None ;;
  range <- parse_range start_str end_str ;;
  after_start <- dt_le (fst range) date_ ;;
  if after_start then dt_le date_ (snd range) else Ok false.

Definition format_range_for_api (start_str end_str : string) : result (string * string) :=
  s <- format_for_api start_str ;;
  e <- format_for_api end_str ;;
  Ok (s, e).

End Engine.

(** [dateutil.tz.UTC]: one object, offset 0. *)
Definition tz_UTC : timezone := mktz 0 0.

(** ** What [dateutil.parser.parse] returns on the texts of the examples

    The library at four texts: ["01/03/99"] read month first is
    3 January 1999 (a two-digit year is moved into the century around the
    clock's year, here any year from 1950 to 2049); ["01/01/2025 10:30"] read
    month first is 1 January 2025 at 10:30, naive; ["01/01/2025 10:30Z"] read
    month first is the same wall clock with the time zone UTC (offset 0);
    ["not-a-date"] raises [ParserError].  The closed examples are evaluated
    with this table, and only at these four texts; on every other text it
    raises. *)
Definition dateutil_observed (timestr : string) (dayfirst : bool) : result datetime :=
  if String.eqb timestr "01/03/99" && negb dayfirst then Ok (date 1999 1 3)
  else if String.eqb timestr "01/01/2025 10:30" && negb dayfirst
  then Ok (mkdt 2025 1 1 10 30 0 0 None)
  else if String.eqb timestr "01/01/2025 10:30Z" && negb dayfirst
  then Ok (mkdt 2025 1 1 10 30 0 0 (Some tz_UTC))
  else Raise (ParserError timestr).

(** * Vocabulary of the statements *)

(** The value of a text of one or two digits. *)
Definition field_value (s : string) : option Z :=
  match s with
  | String a EmptyString => digit_of a
  | String a (String b EmptyString) =>
      match digit_of a, digit_of b with
      | Some x, Some y => Some (10 * x + y)
      | _, _ => None
      end
  | _ => None
  end.

(** The value of a text of exactly four digits. *)
Definition year_value (s : string) : option Z :=
  match s with
  | String a (String b (String c (String d EmptyString))) =>
      match digit_of a, digit_of b, digit_of c, digit_of d with
      | Some x, Some y, Some z, Some w => Some (1000 * x + 100 * y + 10 * z + w)
      | _, _, _, _ => None
      end
  | _ => None
  end.

Definition slash_or_dash (c : ascii) : Prop := c = "/"%char \/ c = "-"%char.

Definition slash_text (a b y : string) : string :=
  a ++ String "/" (b ++ String "/" y).

Definition day_ok (v : Z) : bool := (1 <=? v) && (v <=? 31).
Definition month_ok (v : Z) : bool := (1 <=? v) && (v <=? 12).

Definition build (y m d : Z) : result datetime :=
  if check_date_fields y m d then Ok (date y m d) else Raise (ValueError OutOfRange).

(** [YYYY-MM-DD] *)
Definition iso_text (y m d : string) : string :=
  y ++ String "-" (m ++ String "-" d).

(** The value of a text of exactly two digits. *)
Definition pair_value (s : string) : option Z :=
  match s with
  | String _ (String _ EmptyString) => field_value s
  | _ => None
  end.

(** The five formats of [to_page_format] and the four of [parse_date]. *)
Definition page_formats : list format :=
  [fmt_d_m_Y; fmt_m_d_Y; fmt_Y_m_d; fmt_d_m_Y_dash; fmt_m_d_Y_dash].

Definition parse_formats : list format :=
  [fmt_Y_m_d; fmt_d_m_Y; fmt_m_d_Y; fmt_Ys_m_d].

(** The position of [%Y] among the directives of a format. *)
Fixpoint year_index (fmt : format) : nat :=
  match fmt with
  | [] => O
  | Dir dY :: _ => O
  | Dir _ :: fmt' => S (year_index fmt')
  | Lit _ :: fmt' => year_index fmt'
  end.

(** The field of a text, cut as [re.split] cuts it, that stands where the
    format has its year. *)
Definition year_field (fmt : format) (s : string) : string :=
  nth (year_index fmt) (re_split s) EmptyString.

Fixpoint no_separator (t : string) : bool :=
  match t with
  | EmptyString => true
  | String c t' => negb (is_separator c) && no_separator t'
  end.

(** A text that the group of [%d] or [%m] can match. *)
Definition short_group (t : string) : Prop :=
  (exists v, field_value t = Some v) \/
  (exists c v, t = String " " (String c EmptyString) /\ digit_of c = Some v).

(** A text that the group of a directive can match, with its value. *)
Definition group_text (x : directive) (t : string) (v : Z) : Prop :=
  match x with
  | dY => year_value t = Some v
  | _ => short_group t
  end.

(** A match of one of the three patterns: its fields [a], [b] and the year. *)
Definition date_sample (m : string) (va vb vy : Z) : Prop :=
  exists sep a b y,
    In sep MDY_PATTERNS /\
    m = a ++ String sep (b ++ String sep y) /\
    field_value a = Some va /\ field_value b = Some vb /\ year_value y = Some vy.

(** A page whose first query finds two elements and whose other queries
    raise. *)
Definition posted_page : Page :=
  mkPage (fun selector =>
    if String.eqb selector "text=/\d{1,2}[/\-\.]\d{1,2}[/\-\.]\d{4}/"
    then Ok [Ok (Some "Posted 13/01/2025"); Ok (Some "Updated 02/02/2025")]
    else Raise PlaywrightError).

(** A page on which every query finds nothing. *)
Definition empty_page : Page := mkPage (fun _ => Ok []).

(** * The caller in [pages/transactions_page.py] *)

Section TransactionsPage.

Variable pad_year : bool.
Variable dateutil_parse : string -> bool -> result datetime.

(** [TransactionsPage.apply_date_filter]: the two texts [start_formatted]
    and [end_formatted] that it fills into the form and logs. *)
Definition apply_date_filter_texts (start_date end_date : string)
  : result (string * string) :=
  start_dt <- parse_date dateutil_parse start_date None ;;
  end_dt <- parse_date dateutil_parse end_date None ;;
  Ok (strftime pad_year start_dt fmt_Y_m_d, strftime pad_year end_dt fmt_Y_m_d).

End TransactionsPage.

(** * More vocabulary *)

(** [a SEP b SEP y] *)
Definition sep_text (sep : ascii) (a b y : string) : string :=
  a ++ String sep (b ++ String sep y).

Definition dash_or_dot (c : ascii) : Prop := c = "-"%char \/ c = "."%char.

(** The format [to_page_format] writes for a target. *)
Definition page_format (f : format_hint) : format :=
  match f with
  | MDY => fmt_m_d_Y
  | DMY => fmt_d_m_Y
  end.

(** The [dayfirst] argument of the fallback parser: the hint when there is
    one, else whether the first field is above 12. *)
Definition fallback_dayfirst (hint : option format_hint) (first : Z) : bool :=
  match hint with
  | Some f => is_DMY f
  | None => first >? 12
  end.

(** What the detector reads of the elements of one query: the texts of
    the first five, up to the first one whose [text_content] raises. *)
Fixpoint readable (elements : list element) : list (option string) :=
  match elements with
  | [] => []
  | Raise _ :: _ => []
  | Ok text :: more => text :: readable more
  end.

Definition view (page : Page) (selector : string) : list (option string) :=
  match locator_all page selector with
  | Ok elements => readable (firstn 5 elements)
  | Raise _ => []
  end.

(** Exactly one of two values is naive: what makes a comparison raise. *)
Definition mixed (a b : datetime) : bool :=
  match tzinfo a, tzinfo b with
  | None, Some _ => true
  | Some _, None => true
  | _, _ => false
  end.

(** [start <= date <= end] on three values. *)
Definition chained_le (s d e : datetime) : result bool :=
  after_start <- dt_le s d ;;
  if after_start then dt_le d e else Ok false.

(** * Properties *)

(** ** Evaluations *)

Example strptime_iso : strptime "2025-03-08" fmt_Y_m_d = Ok (date 2025 3 8).
Proof. reflexivity. Qed.

Example strptime_feb30 : strptime "2025-02-30" fmt_Y_m_d = Raise (ValueError OutOfRange).
Proof. reflexivity. Qed.

Example strptime_left_over :
  strptime "2025/1/41" fmt_Ys_m_d = Raise (ValueError (Unconverted "1")).
Proof. reflexivity. Qed.

Example strftime_iso : strftime false (date 2025 3 8) fmt_Y_m_d = "2025-03-08".
Proof. reflexivity. Qed.

Example findall_posted : findall "/" "Posted 13/01/2025, due 2/2/20251" = ["13/01/2025"; "2/2/2025"].
Proof. reflexivity. Qed.

Example py_int_blank : py_int " +1_0 " = Ok 10.
Proof. reflexivity. Qed.

Example py_int_not : py_int "not" = Raise (ValueError (InvalidLiteral "not")).
Proof. reflexivity. Qed.

Example re_split_date : re_split "01/01/2025 10:30" = ["01"; "01"; "2025 10:30"].
Proof. reflexivity. Qed.

Example iso_re_newline : iso_re_match (String.append "2025-03-08" (String newline "")) = true.
Proof. reflexivity. Qed.

Example parse_13_01 : parse_date dateutil_observed "13/01/2025" None = Ok (date 2025 1 13).
Proof. reflexivity. Qed.

Example parse_01_13 : parse_date dateutil_observed "01/13/2025" None = Ok (date 2025 1 13).
Proof. reflexivity. Qed.

Example parse_not_a_date :
  parse_date dateutil_observed "not-a-date" None = Raise (ValueError (InvalidLiteral "not")).
Proof. reflexivity. Qed.

Example page_format_swallow : to_page_format true dateutil_observed "not-a-date" MDY = "not-a-date".
Proof. reflexivity. Qed.

Example range_api :
  format_range_for_api true dateutil_observed "01/03/2025" "08/03/2025"
  = Ok ("2025-03-01", "2025-03-08").
Proof. reflexivity. Qed.

Lemma digit_of_char c v : digit_of c = Some v -> c = digit_char v /\ 0 <= v <= 9.
Proof.
  destruct c as [[] [] [] [] [] [] [] []]; simpl; intro H;
    try discriminate; inversion H; subst; split; (reflexivity || lia).
Qed.

Lemma digit_values v : 0 <= v <= 9 ->
  v = 0 \/ v = 1 \/ v = 2 \/ v = 3 \/ v = 4 \/ v = 5 \/ v = 6 \/ v = 7 \/ v = 8 \/ v = 9.
Proof. lia. Qed.

Ltac digit_cases H :=
  let Hr := fresh "Hr" in
  apply digit_of_char in H; destruct H as [-> Hr];
  apply digit_values in Hr;
  repeat (destruct Hr as [-> | Hr]); [ .. | subst ].

Ltac each_digit Hx :=
  apply digit_values in Hx;
  repeat (destruct Hx as [-> | Hx]); [ .. | subst ].

Ltac close_match :=
  cbn;
  repeat match goal with
         | |- context [re_match ?f ?s ?g] =>
             lazymatch f with
             | cons _ _ => fail
             | _ => destruct (re_match f s g) as [[? ?]|]
             end
         end;
  reflexivity.

(** Case analysis on a text of one or two digits: every text in turn. *)
Ltac field_cases a Ha :=
  let x := fresh "x" in let y := fresh "y" in
  let H1 := fresh "H1" in let H2 := fresh "H2" in
  let Hx := fresh "Hx" in let Hy := fresh "Hy" in
  destruct a as [|? [|? [|? ?]]]; simpl in Ha; try discriminate;
  [ apply digit_of_char in Ha; destruct Ha as [-> Hx]; each_digit Hx
  | match type of Ha with
    | context [digit_of ?a1] =>
        destruct (digit_of a1) as [x|] eqn:H1; try discriminate
    end;
    match type of Ha with
    | context [digit_of ?a2] =>
        destruct (digit_of a2) as [y|] eqn:H2; try discriminate
    end;
    inversion Ha; subst;
    apply digit_of_char in H1, H2;
    destruct H1 as [-> Hx], H2 as [-> Hy];
    each_digit Hx; each_digit Hy ].

Lemma re_match_dd_lit a v c fmt rest g :
  field_value a = Some v -> slash_or_dash c ->
  re_match (Dir dd :: Lit c :: fmt) (a ++ String c rest) g =
  if (1 <=? v) && (v <=? 31) then re_match fmt rest (set_group dd v g) else None.
Proof.
  intros Ha [-> | ->]; field_cases a Ha; close_match.
Qed.

Lemma re_match_dm_lit a v c fmt rest g :
  field_value a = Some v -> slash_or_dash c ->
  re_match (Dir dm :: Lit c :: fmt) (a ++ String c rest) g =
  if (1 <=? v) && (v <=? 12) then re_match fmt rest (set_group dm v g) else None.
Proof.
  intros Ha [-> | ->]; field_cases a Ha; close_match.
Qed.

Lemma re_match_dd_end a v g :
  field_value a = Some v -> 1 <= v <= 31 ->
  re_match [Dir dd] a g = Some (set_group dd v g, EmptyString).
Proof.
  intros Ha Hv; field_cases a Ha; solve [reflexivity | lia].
Qed.

Lemma re_match_dY y v fmt rest g :
  year_value y = Some v ->
  re_match (Dir dY :: fmt) (y ++ rest) g = re_match fmt rest (set_group dY v g).
Proof.
  intros Hy.
  destruct y as [|a [|b [|c [|d [|]]]]]; simpl in Hy; try discriminate.
  cbn. destruct (digit_of a), (digit_of b), (digit_of c), (digit_of d);
    try discriminate.
  inversion Hy; subst. cbn. destruct (re_match fmt rest _) as [[? ?]|]; reflexivity.
Qed.

Lemma re_match_dY_end y v g :
  year_value y = Some v ->
  re_match [Dir dY] y g = Some (set_group dY v g, EmptyString).
Proof.
  intros Hy.
  destruct y as [|a [|b [|c [|d [|]]]]]; simpl in Hy; try discriminate.
  cbn. destruct (digit_of a), (digit_of b), (digit_of c), (digit_of d);
    try discriminate.
  inversion Hy; subst. reflexivity.
Qed.

Lemma re_match_dY_short a v c fmt rest g :
  field_value a = Some v -> slash_or_dash c ->
  re_match (Dir dY :: fmt) (a ++ String c rest) g = None.
Proof.
  intros Ha [-> | ->]; field_cases a Ha; cbn;
    repeat match goal with
           | |- context [match ?r with EmptyString => _ | String _ _ => _ end] =>
               destruct r
           end; reflexivity.
Qed.

Lemma iso_re_match_short a v c rest :
  field_value a = Some v -> slash_or_dash c ->
  iso_re_match (a ++ String c rest) = false.
Proof.
  intros Ha [-> | ->]; field_cases a Ha; cbn;
    repeat match goal with
           | |- context [match ?r with EmptyString => _ | String _ _ => _ end] =>
               destruct r; cbn
           end;
    repeat match goal with
           | |- context [if ?b then _ else _] => destruct b; cbn
           end; reflexivity.
Qed.

(** ** [strptime] and [parse_date] on [a/b/y] *)

Section SlashText.

Variables (a b y : string) (va vb vy : Z).
Hypothesis Ha : field_value a = Some va.
Hypothesis Hb : field_value b = Some vb.
Hypothesis Hy : year_value y = Some vy.

Lemma strptime_d_m_Y_slash :
  strptime (slash_text a b y) fmt_d_m_Y =
  if day_ok va && month_ok vb then build vy vb va
  else Raise (ValueError (NoMatch (slash_text a b y))).
Proof.
  unfold strptime, fmt_d_m_Y, slash_text, day_ok, month_ok.
  rewrite (re_match_dd_lit a va) by (auto; left; reflexivity).
  destruct ((1 <=? va) && (va <=? 31)); [|reflexivity].
  rewrite (re_match_dm_lit b vb) by (auto; left; reflexivity).
  destruct ((1 <=? vb) && (vb <=? 12)); [|reflexivity].
  rewrite (re_match_dY_end y vy) by auto. reflexivity.
Qed.

Lemma strptime_m_d_Y_slash :
  strptime (slash_text a b y) fmt_m_d_Y =
  if month_ok va && day_ok vb then build vy va vb
  else Raise (ValueError (NoMatch (slash_text a b y))).
Proof.
  unfold strptime, fmt_m_d_Y, slash_text, day_ok, month_ok.
  rewrite (re_match_dm_lit a va) by (auto; left; reflexivity).
  destruct ((1 <=? va) && (va <=? 12)); [|reflexivity].
  rewrite (re_match_dd_lit b vb) by (auto; left; reflexivity).
  destruct ((1 <=? vb) && (vb <=? 31)); [|reflexivity].
  rewrite (re_match_dY_end y vy) by auto. reflexivity.
Qed.

Lemma strptime_Y_first_slash c :
  strptime (slash_text a b y) (Dir dY :: Lit c :: Dir dm :: Lit c :: [Dir dd]) =
  Raise (ValueError (NoMatch (slash_text a b y))).
Proof.
  unfold strptime, slash_text.
  rewrite (re_match_dY_short a va) by (auto; left; reflexivity). reflexivity.
Qed.

Lemma iso_re_match_slash : iso_re_match (slash_text a b y) = false.
Proof. apply (iso_re_match_short a va); auto. left; reflexivity. Qed.

End SlashText.

Section ParseSlash.

Variable dateutil_parse : string -> bool -> result datetime.
Variables (a b y : string) (va vb vy : Z).
Hypothesis Ha : field_value a = Some va.
Hypothesis Hb : field_value b = Some vb.
Hypothesis Hy : year_value y = Some vy.

(** The day-first reading is a date: ["%d/%m/%Y"] is the first format
    that parses. *)
Lemma parse_date_day_first hint :
  day_ok va = true -> month_ok vb = true -> check_date_fields vy vb va = true ->
  parse_date dateutil_parse (slash_text a b y) hint = Ok (date vy vb va).
Proof.
  intros Hd Hm Hc. unfold parse_date.
  rewrite (iso_re_match_slash a b y va) by auto.
  unfold try_formats.
  change fmt_Y_m_d with (Dir dY :: Lit "-"%char :: Dir dm :: Lit "-"%char :: [Dir dd]).
  rewrite (strptime_Y_first_slash a b y va) by auto.
  rewrite (strptime_d_m_Y_slash a b y va vb vy) by auto.
  rewrite Hd, Hm. unfold build. rewrite Hc. reflexivity.
Qed.

(** The second field is no month and the month-first reading is a date:
    ["%d/%m/%Y"] fails and ["%m/%d/%Y"] parses. *)
Lemma parse_date_month_first hint :
  month_ok vb = false -> month_ok va = true -> day_ok vb = true ->
  check_date_fields vy va vb = true ->
  parse_date dateutil_parse (slash_text a b y) hint = Ok (date vy va vb).
Proof.
  intros Hnm Hm Hd Hc. unfold parse_date.
  rewrite (iso_re_match_slash a b y va) by auto.
  unfold try_formats.
  change fmt_Y_m_d with (Dir dY :: Lit "-"%char :: Dir dm :: Lit "-"%char :: [Dir dd]).
  rewrite (strptime_Y_first_slash a b y va) by auto.
  rewrite (strptime_d_m_Y_slash a b y va vb vy) by auto.
  rewrite Hnm, andb_false_r.
  rewrite (strptime_m_d_Y_slash a b y va vb vy) by auto.
  rewrite Hd, Hm. unfold build. rewrite Hc. reflexivity.
Qed.

End ParseSlash.

Lemma days_in_month_bounds y m : 28 <= days_in_month y m <= 31.
Proof.
  unfold days_in_month.
  destruct m as [|p|p]; try lia.
  repeat (destruct p as [p|p|]; try lia); destruct (is_leap y); lia.
Qed.

Lemma check_date_fields_spec y m d :
  check_date_fields y m d = true <->
  1 <= y <= 9999 /\ 1 <= m <= 12 /\ 1 <= d <= days_in_month y m.
Proof.
  unfold check_date_fields. rewrite !andb_true_iff, !Z.leb_le. tauto.
Qed.

Lemma year_value_range y v : year_value y = Some v -> 0 <= v <= 9999.
Proof.
  destruct y as [|a [|b [|c [|d [|]]]]]; unfold year_value; try discriminate.
  destruct (digit_of a) as [x1|] eqn:Ea; [|discriminate].
  destruct (digit_of b) as [x2|] eqn:Eb; [|discriminate].
  destruct (digit_of c) as [x3|] eqn:Ec; [|discriminate].
  destruct (digit_of d) as [x4|] eqn:Ed; [|discriminate].
  intro H.
  assert (E : 1000 * x1 + 100 * x2 + 10 * x3 + x4 = v) by congruence.
  apply digit_of_char in Ea, Eb, Ec, Ed.
  destruct Ea as [_ ?], Eb as [_ ?], Ec as [_ ?], Ed as [_ ?]. lia.
Qed.

(** C2: a text [a/b/YYYY] whose two fields are both in 1..12 parses as day
    [a], month [b], year [YYYY], for every hint ([None], MDY or DMY) and
    whatever the fallback parser would do: ["%d/%m/%Y"] comes before
    ["%m/%d/%Y"] in the table, and when the text is not an ISO date and an
    explicit format decides, neither the hint nor the fallback is looked at. *)
Theorem C2_ambiguous_fields_parse_day_first :
  forall (dateutil_parse : string -> bool -> result datetime)
         (a b y : string) (va vb vy : Z) (hint : option format_hint),
    field_value a = Some va -> field_value b = Some vb -> year_value y = Some vy ->
    1 <= va <= 12 -> 1 <= vb <= 12 -> 1 <= vy ->
    parse_date dateutil_parse (slash_text a b y) hint = Ok (date vy vb va) /\
    (forall s r, iso_re_match s = false ->
       try_formats s [fmt_Y_m_d; fmt_d_m_Y; fmt_m_d_Y; fmt_Ys_m_d] = Some r ->
       forall other_parse h, parse_date other_parse s h = r).
Proof.
  intros o a b y va vb vy hint Ha Hb Hy Hva Hvb Hvy. split.
  - apply parse_date_day_first; auto.
    + unfold day_ok. apply andb_true_iff; rewrite !Z.leb_le; lia.
    + unfold month_ok. apply andb_true_iff; rewrite !Z.leb_le; lia.
    + apply check_date_fields_spec. pose proof (year_value_range _ _ Hy).
      pose proof (days_in_month_bounds vy vb). lia.
  - intros s r Hiso Htry o' h. unfold parse_date. rewrite Hiso, Htry. reflexivity.
Qed.

Lemma C2_witness :
  parse_date dateutil_observed "01/03/2025" (Some MDY) = Ok (date 2025 3 1).
Proof.
  apply (proj1 (C2_ambiguous_fields_parse_day_first dateutil_observed
                  "01" "03" "2025" 1 3 2025 (Some MDY)
                  eq_refl eq_refl eq_refl
                  ltac:(lia) ltac:(lia) ltac:(lia))).
Defined.

(** C8: in a text [a/b/YYYY] where exactly one of the two first fields is
    above 12, [parse_date] without hint reads that field as the day,
    provided that reading is a date of the calendar; so ["13/01/2025"] and
    ["01/13/2025"] both parse to 13 January 2025. *)
Theorem C8_decisive_field_is_the_day :
  forall (dateutil_parse : string -> bool -> result datetime)
         (a b y : string) (va vb vy : Z),
    field_value a = Some va -> field_value b = Some vb -> year_value y = Some vy ->
    (12 < va -> vb <= 12 -> check_date_fields vy vb va = true ->
       parse_date dateutil_parse (slash_text a b y) None = Ok (date vy vb va)) /\
    (va <= 12 -> 12 < vb -> check_date_fields vy va vb = true ->
       parse_date dateutil_parse (slash_text a b y) None = Ok (date vy va vb)) /\
    parse_date dateutil_parse "13/01/2025" None = Ok (date 2025 1 13) /\
    parse_date dateutil_parse "01/13/2025" None = Ok (date 2025 1 13).
Proof.
  intros o a b y va vb vy Ha Hb Hy. repeat split.
  - intros H1 H2 Hc. apply parse_date_day_first; auto;
      apply check_date_fields_spec in Hc;
      pose proof (days_in_month_bounds vy vb);
      unfold day_ok, month_ok; apply andb_true_iff; rewrite !Z.leb_le; lia.
  - intros H1 H2 Hc. apply parse_date_month_first; auto;
      apply check_date_fields_spec in Hc;
      pose proof (days_in_month_bounds vy va);
      unfold day_ok, month_ok.
    + apply andb_false_iff. right. apply Z.leb_gt. lia.
    + apply andb_true_iff; rewrite !Z.leb_le; lia.
    + apply andb_true_iff; rewrite !Z.leb_le; lia.
Qed.

Lemma C8_witness :
  parse_date dateutil_observed "01/13/2025" None = Ok (date 2025 1 13).
Proof.
  apply (proj1 (proj2 (C8_decisive_field_is_the_day dateutil_observed
                         "01" "13" "2025" 1 13 2025 eq_refl eq_refl eq_refl)));
    [lia | lia | reflexivity].
Defined.

(** ** What [strftime] writes *)

Lemma digit_of_digit_char k : 0 <= k <= 9 -> digit_of (digit_char k) = Some k.
Proof. intros H. each_digit H; reflexivity. Qed.

Lemma is_digit_digit_char k : is_digit (digit_char k) = true.
Proof.
  destruct k as [|p|p]; try reflexivity.
  do 4 (destruct p as [p|p|]; try reflexivity).
Qed.

Lemma field_value_two_digits v : 0 <= v <= 99 -> field_value (two_digits v) = Some v.
Proof.
  intros H. unfold two_digits, field_value.
  rewrite !digit_of_digit_char by (Z.to_euclidean_division_equations; lia).
  f_equal. Z.to_euclidean_division_equations; lia.
Qed.

Lemma year_value_four_digits v : 0 <= v <= 9999 -> year_value (four_digits v) = Some v.
Proof.
  intros H. unfold four_digits, year_value.
  rewrite !digit_of_digit_char by (Z.to_euclidean_division_equations; lia).
  f_equal. Z.to_euclidean_division_equations; lia.
Qed.

Lemma render_year_four pad_year y :
  1000 <= y <= 9999 -> render_year pad_year y = four_digits y.
Proof.
  intros H. unfold render_year. destruct pad_year; [reflexivity|].
  unfold four_digits.
  assert (Hk : 1 <= y / 1000 <= 9) by (Z.to_euclidean_division_equations; lia).
  revert Hk. generalize (y / 1000). intros k Hk.
  assert (Hk' : 0 <= k <= 9) by lia.
  each_digit Hk'; try lia; reflexivity.
Qed.

Lemma append_empty (s : string) : s ++ EmptyString = s.
Proof. induction s as [|c s IH]; simpl; [|rewrite IH]; reflexivity. Qed.

Lemma strftime_d_m_Y pad_year dt :
  strftime pad_year dt fmt_d_m_Y =
  slash_text (two_digits (day dt)) (two_digits (month dt)) (render_year pad_year (year dt)).
Proof.
  unfold fmt_d_m_Y, slash_text. cbn [strftime render_item append].
  rewrite append_empty. reflexivity.
Qed.

Lemma strftime_m_d_Y pad_year dt :
  strftime pad_year dt fmt_m_d_Y =
  slash_text (two_digits (month dt)) (two_digits (day dt)) (render_year pad_year (year dt)).
Proof.
  unfold fmt_m_d_Y, slash_text. cbn [strftime render_item append].
  rewrite append_empty. reflexivity.
Qed.

Lemma strftime_Y_m_d pad_year dt :
  strftime pad_year dt fmt_Y_m_d =
  iso_text (render_year pad_year (year dt)) (two_digits (month dt)) (two_digits (day dt)).
Proof.
  unfold fmt_Y_m_d, iso_text. cbn [strftime render_item append].
  rewrite append_empty. reflexivity.
Qed.

(** ** The ISO text of a date *)

Lemma iso_re_match_rendered y m d :
  iso_re_match (iso_text (four_digits y) (two_digits m) (two_digits d)) = true.
Proof.
  unfold iso_re_match, iso_text, four_digits, two_digits.
  cbn [append re_seq]. rewrite !is_digit_digit_char. reflexivity.
Qed.

Lemma re_match_lit c fmt s g :
  re_match (Lit c :: fmt) (String c s) g = re_match fmt s g.
Proof. cbn [re_match]. rewrite Ascii.eqb_refl. reflexivity. Qed.

Lemma strptime_iso_text y m d vy vm vd :
  year_value y = Some vy -> field_value m = Some vm -> field_value d = Some vd ->
  month_ok vm = true -> day_ok vd = true ->
  strptime (iso_text y m d) fmt_Y_m_d = build vy vm vd.
Proof.
  intros Hy Hm Hd Hmo Hdo. unfold strptime, fmt_Y_m_d, iso_text.
  rewrite (re_match_dY y vy) by auto. rewrite re_match_lit.
  rewrite (re_match_dm_lit m vm) by (auto; right; reflexivity).
  unfold month_ok in Hmo. rewrite Hmo.
  rewrite (re_match_dd_end d vd); auto.
  unfold day_ok in Hdo. apply andb_true_iff in Hdo. rewrite !Z.leb_le in Hdo. lia.
Qed.

(** The ISO text of a date with a four-digit year parses back to the date,
    on the fast path, whatever the hint. *)
Lemma parse_date_iso_rendered dateutil_parse pad_year y m d hint :
  check_date_fields y m d = true -> 1000 <= y ->
  parse_date dateutil_parse (strftime pad_year (date y m d) fmt_Y_m_d) hint
  = Ok (date y m d).
Proof.
  intros Hc Hy. pose proof Hc as Hc'. apply check_date_fields_spec in Hc'.
  pose proof (days_in_month_bounds y m).
  rewrite strftime_Y_m_d. cbn [year month day date].
  rewrite render_year_four by lia.
  unfold parse_date. rewrite iso_re_match_rendered.
  rewrite (strptime_iso_text _ _ _ y m d).
  - unfold build. rewrite Hc. reflexivity.
  - apply year_value_four_digits. lia.
  - apply field_value_two_digits. lia.
  - apply field_value_two_digits. lia.
  - unfold month_ok. apply andb_true_iff. rewrite !Z.leb_le. lia.
  - unfold day_ok. apply andb_true_iff. rewrite !Z.leb_le. lia.
Qed.

(** ** Rendering a date and parsing it again *)

(** C1 (amended): for a date of the calendar with a four-digit year, the
    ISO text parsed without hint and the day-first text [DD/MM/YYYY] parsed
    with the hint DMY give the date back.  The month-first text
    [MM/DD/YYYY] parsed with the hint MDY gives the date back when its day is
    above 12 (or equals its month); when the day is at most 12 the text is
    read day first and the result has day and month exchanged. *)
Theorem C1_round_trip_by_format :
  forall (pad_year : bool) (dateutil_parse : string -> bool -> result datetime)
         (y m d : Z),
    check_date_fields y m d = true -> 1000 <= y ->
    parse_date dateutil_parse
      (format_for_display pad_year (date y m d) fmt_Y_m_d) None = Ok (date y m d) /\
    parse_date dateutil_parse
      (format_for_display pad_year (date y m d) fmt_d_m_Y) (Some DMY) = Ok (date y m d) /\
    parse_date dateutil_parse
      (format_for_display pad_year (date y m d) fmt_m_d_Y) (Some MDY)
      = Ok (if d <=? 12 then date y d m else date y m d) /\
    (12 < d \/ d = m ->
     parse_date dateutil_parse
       (format_for_display pad_year (date y m d) fmt_m_d_Y) (Some MDY) = Ok (date y m d)).
Proof.
  intros pad o y m d Hc Hy.
  pose proof Hc as Hr. apply check_date_fields_spec in Hr.
  pose proof (days_in_month_bounds y m) as Hb.
  assert (Hfy : year_value (render_year pad y) = Some y)
    by (rewrite render_year_four by lia; apply year_value_four_digits; lia).
  assert (Hfm : field_value (two_digits m) = Some m)
    by (apply field_value_two_digits; lia).
  assert (Hfd : field_value (two_digits d) = Some d)
    by (apply field_value_two_digits; lia).
  assert (Hmo : month_ok m = true)
    by (unfold month_ok; apply andb_true_iff; rewrite !Z.leb_le; lia).
  assert (Hdo : day_ok d = true)
    by (unfold day_ok; apply andb_true_iff; rewrite !Z.leb_le; lia).
  assert (Hmf : parse_date o (format_for_display pad (date y m d) fmt_m_d_Y) (Some MDY)
                = Ok (if d <=? 12 then date y d m else date y m d)).
  { unfold format_for_display. rewrite strftime_m_d_Y. cbn [year month day date].
    destruct (d <=? 12) eqn:Hd.
    - apply Z.leb_le in Hd. apply parse_date_day_first; auto.
      + unfold day_ok; apply andb_true_iff; rewrite !Z.leb_le; lia.
      + unfold month_ok; apply andb_true_iff; rewrite !Z.leb_le; lia.
      + apply check_date_fields_spec. pose proof (days_in_month_bounds y d). lia.
    - apply Z.leb_gt in Hd. apply parse_date_month_first; auto.
      unfold month_ok. apply andb_false_iff. right. apply Z.leb_gt. lia. }
  split; [|split; [|split]].
  - unfold format_for_display. apply parse_date_iso_rendered; auto.
  - unfold format_for_display. rewrite strftime_d_m_Y. cbn [year month day date].
    apply parse_date_day_first; auto.
  - exact Hmf.
  - intros Hd. rewrite Hmf. destruct (d <=? 12) eqn:E; [|reflexivity].
    apply Z.leb_le in E. destruct Hd as [Hd | ->]; [lia | reflexivity].
Qed.

Lemma C1_witness :
  parse_date dateutil_observed
    (format_for_display false (date 2025 3 8) fmt_m_d_Y) (Some MDY) = Ok (date 2025 8 3).
Proof.
  apply (proj1 (proj2 (proj2 (C1_round_trip_by_format false dateutil_observed
                                2025 3 8 eq_refl ltac:(lia))))).
Defined.

(** The claim fails for 8 March 2025 written month first: ["03/08/2025"]
    parsed with the hint MDY is 3 August 2025. *)
Lemma C1_counterexample :
  check_date_fields 2025 3 8 = true /\
  format_for_display true (date 2025 3 8) fmt_m_d_Y = "03/08/2025" /\
  parse_date dateutil_observed "03/08/2025" (Some MDY) = Ok (date 2025 8 3) /\
  date 2025 8 3 <> date 2025 3 8.
Proof. repeat split. discriminate. Qed.

(** ** The ISO fast path *)

Lemma pair_value_field s v : pair_value s = Some v -> field_value s = Some v.
Proof. destruct s as [|a [|b [|]]]; simpl; intros H; (discriminate || exact H). Qed.

Lemma digit_of_is_digit c v : digit_of c = Some v -> is_digit c = true.
Proof. unfold is_digit. intros ->. reflexivity. Qed.

Lemma iso_re_match_text y m d vy vm vd :
  year_value y = Some vy -> pair_value m = Some vm -> pair_value d = Some vd ->
  iso_re_match (iso_text y m d) = true.
Proof.
  intros Hy Hm Hd.
  destruct y as [|y1 [|y2 [|y3 [|y4 [|]]]]]; unfold year_value in Hy; try discriminate.
  destruct m as [|m1 [|m2 [|]]]; unfold pair_value, field_value in Hm; try discriminate.
  destruct d as [|d1 [|d2 [|]]]; unfold pair_value, field_value in Hd; try discriminate.
  unfold iso_re_match, iso_text. cbn [append re_seq].
  destruct (digit_of y1) eqn:E1; [|discriminate].
  destruct (digit_of y2) eqn:E2; [|discriminate].
  destruct (digit_of y3) eqn:E3; [|discriminate].
  destruct (digit_of y4) eqn:E4; [|discriminate].
  destruct (digit_of m1) eqn:E5; [|discriminate].
  destruct (digit_of m2) eqn:E6; [|discriminate].
  destruct (digit_of d1) eqn:E7; [|discriminate].
  destruct (digit_of d2) eqn:E8; [|discriminate].
  rewrite (digit_of_is_digit _ _ E1), (digit_of_is_digit _ _ E2),
    (digit_of_is_digit _ _ E3), (digit_of_is_digit _ _ E4),
    (digit_of_is_digit _ _ E5), (digit_of_is_digit _ _ E6),
    (digit_of_is_digit _ _ E7), (digit_of_is_digit _ _ E8).
  reflexivity.
Qed.

(** C4: a text that matches [^\d{4}-\d{2}-\d{2}$] is handed to
    [strptime] with ["%Y-%m-%d"] and nothing else: the result does not depend
    on the hint nor on the fallback parser.  When its three fields are a date
    of the calendar the result is that date, year-month-day; so
    ["2025-03-08"] parses to 8 March 2025 under every hint. *)
Theorem C4_iso_takes_priority :
  forall (dateutil_parse : string -> bool -> result datetime),
    (forall s hint, iso_re_match s = true ->
       parse_date dateutil_parse s hint = strptime s fmt_Y_m_d) /\
    (forall y m d vy vm vd hint,
       year_value y = Some vy -> pair_value m = Some vm -> pair_value d = Some vd ->
       check_date_fields vy vm vd = true ->
       parse_date dateutil_parse (iso_text y m d) hint = Ok (date vy vm vd)) /\
    (forall hint, parse_date dateutil_parse "2025-03-08" hint = Ok (date 2025 3 8)).
Proof.
  intros o. split; [|split].
  - intros s hint H. unfold parse_date. rewrite H. reflexivity.
  - intros y m d vy vm vd hint Hy Hm Hd Hc.
    unfold parse_date. rewrite (iso_re_match_text y m d vy vm vd) by auto.
    pose proof Hc as Hr. apply check_date_fields_spec in Hr.
    pose proof (days_in_month_bounds vy vm).
    rewrite (strptime_iso_text y m d vy vm vd); auto using pair_value_field.
    + unfold build. rewrite Hc. reflexivity.
    + unfold month_ok. apply andb_true_iff. rewrite !Z.leb_le. lia.
    + unfold day_ok. apply andb_true_iff. rewrite !Z.leb_le. lia.
  - intros hint. reflexivity.
Qed.

Lemma C4_witness :
  parse_date dateutil_observed "2024-02-29" (Some DMY) = Ok (date 2024 2 29).
Proof.
  apply (proj1 (proj2 (C4_iso_takes_priority dateutil_observed))
           "2024" "02" "29" 2024 2 29 (Some DMY) eq_refl eq_refl eq_refl eq_refl).
Defined.

(** ** The range for the API *)

(** C3 (amended): [format_range_for_api] has no hint; each boundary is
    parsed by [parse_date] without hint and written as [YYYY-MM-DD].  On
    ["01/03/2025"] and ["08/03/2025"] both boundaries are read day first and
    the result is [("2025-03-01", "2025-03-08")]. *)
Theorem C3_range_for_api :
  forall (pad_year : bool) (dateutil_parse : string -> bool -> result datetime),
    format_range_for_api pad_year dateutil_parse "01/03/2025" "08/03/2025"
    = Ok ("2025-03-01", "2025-03-08") /\
    (forall start_str end_str s e,
       parse_date dateutil_parse start_str None = Ok s ->
       parse_date dateutil_parse end_str None = Ok e ->
       format_range_for_api pad_year dateutil_parse start_str end_str
       = Ok (strftime pad_year s fmt_Y_m_d, strftime pad_year e fmt_Y_m_d)).
Proof.
  intros pad o. split.
  - destruct pad; reflexivity.
  - intros ss es s e Hs He. unfold format_range_for_api, format_for_api.
    rewrite Hs, He. reflexivity.
Qed.

Lemma C3_witness :
  format_range_for_api true dateutil_observed "2025-01-03" "01/01/2025 10:30"
  = Ok ("2025-01-03", "2025-01-01").
Proof.
  apply (proj2 (C3_range_for_api true dateutil_observed)
           "2025-01-03" "01/01/2025 10:30" (date 2025 1 3) (mkdt 2025 1 1 10 30 0 0 None)
           eq_refl eq_refl).
Defined.

(** The pair the claim expects is not what the function returns. *)
Lemma C3_counterexample :
  format_range_for_api true dateutil_observed "01/03/2025" "08/03/2025"
  <> Ok ("2025-01-03", "2025-08-03").
Proof. discriminate. Qed.

(** ** Failures *)

(** C5 (amended): ["not-a-date"] makes [parse_date] raise: without hint a
    [ValueError] of [int] on its first field ["not"], with a hint whatever the
    fallback parser raises.  [format_for_api], [parse_range],
    [is_date_in_range] and [format_range_for_api] hand the exception of
    [parse_date] on unchanged, whichever of their texts fails first, and
    return a result only when every one of their texts parsed.
    [to_page_format] does not: when its five formats fail and the fallback
    parser raises, it returns its input. *)
Theorem C5_failures :
  forall (pad_year : bool) (dateutil_parse : string -> bool -> result datetime),
    parse_date dateutil_parse "not-a-date" None
      = Raise (ValueError (InvalidLiteral "not")) /\
    (forall h, parse_date dateutil_parse "not-a-date" (Some h)
               = dateutil_parse "not-a-date" (is_DMY h)) /\
    (forall s t u e,
       parse_date dateutil_parse s None = Raise e ->
       format_for_api pad_year dateutil_parse s = Raise e /\
       format_range_for_api pad_year dateutil_parse s t = Raise e /\
       parse_range dateutil_parse s t = Raise e /\
       is_date_in_range dateutil_parse s t u = Raise e) /\
    (forall s t u ds e,
       parse_date dateutil_parse s None = Ok ds ->
       parse_date dateutil_parse t None = Raise e ->
       format_range_for_api pad_year dateutil_parse s t = Raise e /\
       parse_range dateutil_parse s t = Raise e /\
       is_date_in_range dateutil_parse s t u = Raise e) /\
    (forall s t u ds dt e,
       parse_date dateutil_parse s None = Ok ds ->
       parse_date dateutil_parse t None = Ok dt ->
       parse_date dateutil_parse u None = Raise e ->
       is_date_in_range dateutil_parse s t u = Raise e) /\
    (forall s r,
       format_for_api pad_year dateutil_parse s = Ok r ->
       exists ds, parse_date dateutil_parse s None = Ok ds /\
                  r = strftime pad_year ds fmt_Y_m_d) /\
    (forall s t r,
       format_range_for_api pad_year dateutil_parse s t = Ok r ->
       exists ds dt,
         parse_date dateutil_parse s None = Ok ds /\
         parse_date dateutil_parse t None = Ok dt /\
         r = (strftime pad_year ds fmt_Y_m_d, strftime pad_year dt fmt_Y_m_d)) /\
    (forall s t r,
       parse_range dateutil_parse s t = Ok r ->
       parse_date dateutil_parse s None = Ok (fst r) /\
       parse_date dateutil_parse t None = Ok (snd r)) /\
    (forall s t u r,
       is_date_in_range dateutil_parse s t u = Ok r ->
       exists ds dt du,
         parse_date dateutil_parse s None = Ok ds /\
         parse_date dateutil_parse t None = Ok dt /\
         parse_date dateutil_parse u None = Ok du) /\
    (forall s f e,
       try_formats s page_formats = None ->
       dateutil_parse s (is_DMY f) = Raise e ->
       to_page_format pad_year dateutil_parse s f = s).
Proof.
  intros pad o. repeat apply conj.
  - reflexivity.
  - intros h. unfold parse_date. cbn. destruct (o _ _); reflexivity.
  - intros s t u e H.
    unfold format_range_for_api, format_for_api, parse_range, is_date_in_range,
      parse_range.
    rewrite H. repeat split; reflexivity.
  - intros s t u ds e Hs Ht.
    unfold format_range_for_api, format_for_api, parse_range, is_date_in_range,
      parse_range.
    rewrite Hs, Ht. cbn [bind].
    destruct (parse_date o u None); repeat split; reflexivity.
  - intros s t u ds dt e Hs Ht Hu.
    unfold is_date_in_range, parse_range. rewrite Hs, Ht, Hu. reflexivity.
  - intros s r. unfold format_for_api.
    destruct (parse_date o s None) as [ds|x]; cbn [bind]; [|discriminate].
    intros H. injection H as <-. eauto.
  - intros s t r. unfold format_range_for_api, format_for_api.
    destruct (parse_date o s None) as [ds|x]; cbn [bind]; [|discriminate].
    destruct (parse_date o t None) as [dt|x]; cbn [bind]; [|discriminate].
    intros H. injection H as <-. eauto.
  - intros s t r. unfold parse_range.
    destruct (parse_date o s None) as [ds|x]; cbn [bind]; [|discriminate].
    destruct (parse_date o t None) as [dt|x]; cbn [bind]; [|discriminate].
    intros H. injection H as <-. split; reflexivity.
  - intros s t u r. unfold is_date_in_range, parse_range.
    destruct (parse_date o s None) as [ds|x]; cbn [bind]; [|discriminate].
    destruct (parse_date o t None) as [dt|x]; cbn [bind]; [|discriminate].
    destruct (parse_date o u None) as [du|x]; cbn [bind]; [|discriminate].
    intros _. exists ds, dt, du. repeat split.
  - intros s f e Ht Ho. unfold to_page_format. fold page_formats.
    rewrite Ht, Ho. reflexivity.
Qed.

Lemma C5_witness :
  format_range_for_api true dateutil_observed "01/03/2025" "not-a-date"
  = Raise (ValueError (InvalidLiteral "not")).
Proof.
  apply (proj1 (proj1 (proj2 (proj2 (proj2 (C5_failures true dateutil_observed))))
                  "01/03/2025" "not-a-date" "" (date 2025 3 1)
                  (ValueError (InvalidLiteral "not")) eq_refl eq_refl)).
Defined.

(** Page-format conversion on ["not-a-date"]: no format parses it, the
    fallback parser raises, and the input comes back unchanged. *)
Lemma C5_counterexample :
  try_formats "not-a-date" page_formats = None /\
  dateutil_observed "not-a-date" false = Raise (ParserError "not-a-date") /\
  to_page_format true dateutil_observed "not-a-date" MDY = "not-a-date".
Proof. repeat split. Qed.

(** ** Comparison *)

Lemma lex_compare_trans a : forall b c,
  lex_compare a b <> Gt -> lex_compare b c <> Gt -> lex_compare a c <> Gt.
Proof.
  induction a as [|x a IH]; intros [|y b] [|z c]; simpl; try congruence.
  destruct (Z.compare_spec x y), (Z.compare_spec y z), (Z.compare_spec x z);
    try lia; try congruence; subst; eauto.
Qed.

Lemma naive_le_trans a b c :
  naive_le a b = true -> naive_le b c = true -> naive_le a c = true.
Proof.
  unfold naive_le, naive_compare. intros H1 H2.
  pose proof (lex_compare_trans (dt_fields a) (dt_fields b) (dt_fields c)) as T.
  destruct (lex_compare (dt_fields a) (dt_fields b));
    destruct (lex_compare (dt_fields b) (dt_fields c));
    destruct (lex_compare (dt_fields a) (dt_fields c));
    try discriminate; try reflexivity; exfalso; apply T; congruence.
Qed.

Lemma naive_le_calendar a b :
  no_time_of_day a = true -> no_time_of_day b = true ->
  naive_le a b = calendar_le a b.
Proof.
  unfold no_time_of_day, naive_le, calendar_le, naive_compare, dt_fields.
  rewrite !andb_true_iff, !Z.eqb_eq.
  intros [[[-> ->] ->] ->] [[[-> ->] ->] ->]. simpl.
  destruct (year a ?= year b), (month a ?= month b), (day a ?= day b); reflexivity.
Qed.

Lemma dt_le_naive a b :
  tzinfo a = None -> tzinfo b = None -> dt_le a b = Ok (naive_le a b).
Proof.
  intros Ha Hb. unfold dt_le, dt_compare. rewrite Ha, Hb. reflexivity.
Qed.

(** A comparison raises exactly when one value is naive and the other is
    aware, and what it raises is [TypeError]. *)
Lemma dt_le_raises a b : raises (dt_le a b) <-> mixed a b = true.
Proof.
  unfold raises, dt_le, dt_compare, mixed.
  destruct (tzinfo a) as [x|], (tzinfo b) as [y|]; cbn [same_tzinfo].
  - destruct (tz_object x =? tz_object y), (utcoffset x =? utcoffset y);
      cbn [bind]; split; try discriminate; intros [e H]; discriminate.
  - cbn [bind]. split; eauto.
  - cbn [bind]. split; eauto.
  - cbn [bind]. split; [intros [e H]|]; discriminate.
Qed.

Lemma dt_le_type_error a b x : dt_le a b = Raise x -> x = TypeError.
Proof.
  unfold dt_le, dt_compare.
  destruct (tzinfo a) as [p|], (tzinfo b) as [q|]; cbn [same_tzinfo].
  - destruct (tz_object p =? tz_object q), (utcoffset p =? utcoffset q);
      cbn [bind]; discriminate.
  - cbn [bind]. congruence.
  - cbn [bind]. congruence.
  - cbn [bind]. discriminate.
Qed.

Lemma chained_le_raises s d e :
  raises (chained_le s d e) <->
  mixed s d = true \/ (dt_le s d = Ok true /\ mixed d e = true).
Proof.
  unfold chained_le. rewrite <- !dt_le_raises.
  destruct (dt_le s d) as [[|]|x] eqn:E; cbn [bind]; unfold raises.
  - split.
    + intros H. right. split; [reflexivity|exact H].
    + intros [[y H]|[_ H]]; [discriminate|exact H].
  - split.
    + intros [y H]. discriminate.
    + intros [[y H]|[H _]]; discriminate.
  - split; eauto.
Qed.

Lemma chained_le_type_error s d e x : chained_le s d e = Raise x -> x = TypeError.
Proof.
  unfold chained_le.
  destruct (dt_le s d) as [[|]|y] eqn:E; cbn [bind].
  - apply dt_le_type_error.
  - discriminate.
  - intros H. injection H as <-. exact (dt_le_type_error _ _ _ E).
Qed.

(** C7 (amended): [is_date_in_range] parses the three texts with
    [parse_date] without hint, each on its own, and raises the exception of
    the first that fails (the date, then the start, then the end).  When the
    three parse it returns whether [start <= date <= end] in the order of
    [datetime] values; it then raises only [TypeError], and exactly when a
    pair it compares has one naive and one aware value.  On naive values, as
    every explicit format gives, the order is year, month, day, then the time
    of day: the comparison of calendar dates when no value has a time of
    day.  The range is not validated, and for naive values with
    [start > end] the answer is [False] for every date.
    [is_date_in_range("15/02/2025", "01/01/2025", "28/02/2025")] is [True]. *)
Theorem C7_range_membership :
  forall (dateutil_parse : string -> bool -> result datetime)
         (date_str start_str end_str : string),
    (forall x,
       parse_date dateutil_parse date_str None = Raise x ->
       is_date_in_range dateutil_parse date_str start_str end_str = Raise x) /\
    (forall d x,
       parse_date dateutil_parse date_str None = Ok d ->
       parse_date dateutil_parse start_str None = Raise x ->
       is_date_in_range dateutil_parse date_str start_str end_str = Raise x) /\
    (forall d s x,
       parse_date dateutil_parse date_str None = Ok d ->
       parse_date dateutil_parse start_str None = Ok s ->
       parse_date dateutil_parse end_str None = Raise x ->
       is_date_in_range dateutil_parse date_str start_str end_str = Raise x) /\
    (forall d s e,
       parse_date dateutil_parse date_str None = Ok d ->
       parse_date dateutil_parse start_str None = Ok s ->
       parse_date dateutil_parse end_str None = Ok e ->
       is_date_in_range dateutil_parse date_str start_str end_str
         = chained_le s d e /\
       (forall x,
          is_date_in_range dateutil_parse date_str start_str end_str = Raise x ->
          x = TypeError) /\
       (raises (is_date_in_range dateutil_parse date_str start_str end_str) <->
        mixed s d = true \/ (dt_le s d = Ok true /\ mixed d e = true)) /\
       (tzinfo d = None -> tzinfo s = None -> tzinfo e = None ->
        is_date_in_range dateutil_parse date_str start_str end_str
          = Ok (naive_le s d && naive_le d e) /\
        (no_time_of_day d = true -> no_time_of_day s = true ->
         no_time_of_day e = true ->
         is_date_in_range dateutil_parse date_str start_str end_str
           = Ok (calendar_le s d && calendar_le d e)) /\
        (naive_le s e = false ->
         is_date_in_range dateutil_parse date_str start_str end_str = Ok false))) /\
    is_date_in_range dateutil_parse "15/02/2025" "01/01/2025" "28/02/2025" = Ok true.
Proof.
  intros o ds ss es. repeat apply conj.
  - intros x H. unfold is_date_in_range. rewrite H. reflexivity.
  - intros d x Hd Hs. unfold is_date_in_range, parse_range. rewrite Hd, Hs.
    reflexivity.
  - intros d s x Hd Hs He. unfold is_date_in_range, parse_range.
    rewrite Hd, Hs, He. reflexivity.
  - intros d s e Hd Hs He.
    assert (E : is_date_in_range o ds ss es = chained_le s d e).
    { unfold is_date_in_range, parse_range. rewrite Hd, Hs, He. reflexivity. }
    split; [exact E|]. split; [|split].
    + intros x. rewrite E. apply chained_le_type_error.
    + rewrite E. apply chained_le_raises.
    + intros Nd Ns Ne.
      assert (N : is_date_in_range o ds ss es = Ok (naive_le s d && naive_le d e)).
      { rewrite E. unfold chained_le.
        rewrite (dt_le_naive s d Ns Nd), (dt_le_naive d e Nd Ne). cbn [bind].
        destruct (naive_le s d); reflexivity. }
      split; [exact N|split].
      * intros Td Ts Te. rewrite N, !naive_le_calendar by assumption. reflexivity.
      * intros Hrev. rewrite N.
        destruct (naive_le s d) eqn:H1; [|reflexivity].
        destruct (naive_le d e) eqn:H2; [|reflexivity].
        rewrite (naive_le_trans s d e H1 H2) in Hrev. discriminate.
  - reflexivity.
Qed.

Lemma C7_witness :
  is_date_in_range dateutil_observed "2025-03-08" "2025-12-31" "2025-01-01" = Ok false.
Proof.
  destruct (C7_range_membership dateutil_observed
              "2025-03-08" "2025-12-31" "2025-01-01") as (_ & _ & _ & H & _).
  destruct (H (date 2025 3 8) (date 2025 12 31) (date 2025 1 1)
              eq_refl eq_refl eq_refl) as (_ & _ & _ & N).
  destruct (N eq_refl eq_refl eq_refl) as (_ & _ & R).
  apply R. reflexivity.
Defined.

Example toordinal_dates :
  toordinal (date 2025 1 1) = 739252 /\ toordinal (date 2024 3 1) = 738946 /\
  toordinal (date 1 1 1) = 1 /\ toordinal (date 9999 12 31) = 3652059.
Proof. repeat split. Qed.

(** 10:30 at offset 0 and 12:30 at offset +2h are one instant; 11:00 at
    offset +2h is earlier than 10:30 at offset 0. *)
Example aware_by_instant :
  dt_le (mkdt 2025 1 1 10 30 0 0 (Some tz_UTC))
        (mkdt 2025 1 1 12 30 0 0 (Some (mktz 1 7200000000))) = Ok true /\
  dt_le (mkdt 2025 1 1 12 30 0 0 (Some (mktz 1 7200000000)))
        (mkdt 2025 1 1 10 30 0 0 (Some tz_UTC)) = Ok true /\
  dt_le (mkdt 2025 1 1 10 30 0 0 (Some tz_UTC))
        (mkdt 2025 1 1 11 0 0 0 (Some (mktz 1 7200000000))) = Ok false.
Proof. repeat split. Qed.

(** A date text with a time zone between two naive boundaries: the three
    texts parse and the comparison raises. *)
Example range_naive_and_aware :
  is_date_in_range dateutil_observed "01/01/2025 10:30Z" "01/01/2025" "02/01/2025"
  = Raise TypeError.
Proof. reflexivity. Qed.

(** A date text with a time of day, and a range of one day: the three texts
    parse, the calendar dates are equal, and the answer is [False]. *)
Lemma C7_counterexample :
  parse_date dateutil_observed "01/01/2025 10:30" None = Ok (mkdt 2025 1 1 10 30 0 0 None) /\
  parse_date dateutil_observed "01/01/2025" None = Ok (date 2025 1 1) /\
  calendar_le (date 2025 1 1) (mkdt 2025 1 1 10 30 0 0 None) &&
  calendar_le (mkdt 2025 1 1 10 30 0 0 None) (date 2025 1 1) = true /\
  is_date_in_range dateutil_observed "01/01/2025 10:30" "01/01/2025" "01/01/2025"
  = Ok false.
Proof. repeat split. Qed.

(** ** The ISO text as a pivot *)

Lemma strptime_valid s fmt dt :
  strptime s fmt = Ok dt -> valid_datetime dt = true /\ no_time_of_day dt = true.
Proof.
  unfold strptime.
  destruct (re_match fmt s no_groups) as [[g [|c r]]|]; try discriminate.
  destruct (check_date_fields _ _ _) eqn:E; try discriminate.
  intros H. injection H as <-. unfold valid_datetime, date. cbn [year month day].
  rewrite E. split; reflexivity.
Qed.

Lemma try_formats_valid s fmts dt :
  try_formats s fmts = Some (Ok dt) ->
  valid_datetime dt = true /\ no_time_of_day dt = true.
Proof.
  induction fmts as [|fmt fmts IH]; simpl; [discriminate|].
  destruct (strptime s fmt) as [d|[e|t|t| |]] eqn:E; try discriminate; auto.
  intros H. injection H as <-. exact (strptime_valid _ _ _ E).
Qed.

Lemma no_time_of_day_date dt :
  tzinfo dt = None -> no_time_of_day dt = true ->
  date (year dt) (month dt) (day dt) = dt.
Proof.
  destruct dt as [y m d h mi s us tz]. unfold no_time_of_day, date. cbn.
  intros ->. rewrite !andb_true_iff, !Z.eqb_eq. intros [[[-> ->] ->] ->].
  reflexivity.
Qed.

Lemma date_is_naive_midnight dt y m d :
  dt = date y m d -> tzinfo dt = None /\ no_time_of_day dt = true.
Proof. intros ->. split; reflexivity. Qed.

(** C10 (amended): when [parse_date] accepts a text and the value has a
    four-digit year, [format_for_api] returns a text that matches the ISO
    pattern, and parsing that text gives, under every hint, the calendar date
    of the value, naive and at midnight.  This is the value itself exactly
    when the value is naive and has no time of day. *)
Theorem C10_iso_pivot :
  forall (pad_year : bool) (dateutil_parse : string -> bool -> result datetime)
         (s : string) (dt : datetime),
    parse_date dateutil_parse s None = Ok dt ->
    valid_datetime dt = true -> 1000 <= year dt ->
    exists t,
      format_for_api pad_year dateutil_parse s = Ok t /\
      iso_re_match t = true /\
      (forall h, parse_date dateutil_parse t h
                 = Ok (date (year dt) (month dt) (day dt))) /\
      ((forall h, parse_date dateutil_parse t h = parse_date dateutil_parse s None)
       <-> tzinfo dt = None /\ no_time_of_day dt = true).
Proof.
  intros pad o s dt Hp Hv Hy.
  unfold valid_datetime in Hv. apply andb_true_iff in Hv. destruct Hv as [Hc _].
  pose proof Hc as Hr. apply check_date_fields_spec in Hr.
  exists (strftime pad dt fmt_Y_m_d).
  assert (E : strftime pad dt fmt_Y_m_d
              = strftime pad (date (year dt) (month dt) (day dt)) fmt_Y_m_d)
    by (rewrite !strftime_Y_m_d; reflexivity).
  assert (P : forall h, parse_date o (strftime pad dt fmt_Y_m_d) h
                        = Ok (date (year dt) (month dt) (day dt)))
    by (intros h; rewrite E; apply parse_date_iso_rendered; auto).
  split; [|split; [|split; [exact P|split]]].
  - unfold format_for_api. rewrite Hp. reflexivity.
  - rewrite strftime_Y_m_d, render_year_four by lia. apply iso_re_match_rendered.
  - intros H. specialize (H None). rewrite P, Hp in H. injection H as H.
    exact (date_is_naive_midnight dt _ _ _ (eq_sym H)).
  - intros [Hz Hn] h. rewrite P, Hp, no_time_of_day_date by assumption. reflexivity.
Qed.

Lemma C10_witness :
  exists t,
    format_for_api false dateutil_observed "01/03/99" = Ok t /\
    iso_re_match t = true /\
    (forall h, parse_date dateutil_observed t h = Ok (date 1999 1 3)) /\
    ((forall h, parse_date dateutil_observed t h
                = parse_date dateutil_observed "01/03/99" None)
     <-> tzinfo (date 1999 1 3) = None /\ no_time_of_day (date 1999 1 3) = true).
Proof.
  apply (C10_iso_pivot false dateutil_observed "01/03/99" (date 1999 1 3)
           eq_refl eq_refl).
  simpl. lia.
Defined.

(** A text with a time of day: the value is 10:30 on 1 January 2025, its API
    text is ["2025-01-01"], and that text parses to midnight. *)
Lemma C10_counterexample :
  parse_date dateutil_observed "01/01/2025 10:30" None = Ok (mkdt 2025 1 1 10 30 0 0 None) /\
  format_for_api true dateutil_observed "01/01/2025 10:30" = Ok "2025-01-01" /\
  parse_date dateutil_observed "2025-01-01" None = Ok (date 2025 1 1) /\
  parse_date dateutil_observed "2025-01-01" None
  <> parse_date dateutil_observed "01/01/2025 10:30" None.
Proof. repeat split. discriminate. Qed.

(** ** What a successful [strptime] says about the text *)

Lemma first_success_some {A B : Type} (f : A -> option B) l b :
  first_success f l = Some b -> exists a, In a l /\ f a = Some b.
Proof.
  induction l as [|a l IH]; simpl; [discriminate|].
  destruct (f a) eqn:E.
  - intros H. injection H as <-. eauto.
  - intros H. destruct (IH H) as [a' [? ?]]. eauto.
Qed.

Lemma re_match_dir_inv x fmt s g res :
  re_match (Dir x :: fmt) s g = Some res ->
  exists v s', In (v, s') (alternatives x s) /\
               re_match fmt s' (set_group x v g) = Some res.
Proof.
  cbn [re_match]. intros H. apply first_success_some in H.
  destruct H as [[v s'] [Hin H]]. eauto.
Qed.

Lemma re_match_lit_inv c fmt s g res :
  re_match (Lit c :: fmt) s g = Some res ->
  exists s', s = String c s' /\ re_match fmt s' g = Some res.
Proof.
  cbn [re_match]. destruct s as [|c' s']; [discriminate|].
  destruct (Ascii.eqb c c') eqn:E; [|discriminate].
  apply Ascii.eqb_eq in E. subst. eauto.
Qed.

Lemma seq2_inv ca cb s v s' :
  In (v, s') (seq2 ca cb s) ->
  exists a b x y, s = String a (String b s') /\ ca a = Some x /\ cb b = Some y.
Proof.
  unfold seq2. destruct s as [|a [|b r]]; simpl; try tauto.
  destruct (ca a) eqn:Ea; simpl; try tauto.
  destruct (cb b) eqn:Eb; simpl; try tauto.
  intros [H|[]]. injection H as _ <-. eauto 8.
Qed.

Lemma seq1_inv ca s v s' :
  In (v, s') (seq1 ca s) -> exists a x, s = String a s' /\ ca a = Some x.
Proof.
  unfold seq1. destruct s as [|a r]; simpl; try tauto.
  destruct (ca a) eqn:Ea; simpl; try tauto.
  intros [H|[]]. injection H as _ <-. eauto.
Qed.

Lemma cls_digit lo hi c v : cls lo hi c = Some v -> digit_of c = Some v.
Proof.
  unfold cls. destruct (digit_of c); [|discriminate].
  destruct (_ && _); [|discriminate]. auto.
Qed.

Lemma two_digits_short a b x y :
  digit_of a = Some x -> digit_of b = Some y ->
  short_group (String a (String b EmptyString)).
Proof. intros Ha Hb. left. unfold field_value. rewrite Ha, Hb. eauto. Qed.

Lemma seq2_cls_short lo hi lo' hi' s v s' :
  In (v, s') (seq2 (cls lo hi) (cls lo' hi') s) ->
  exists t, s = t ++ s' /\ short_group t.
Proof.
  intros H. apply seq2_inv in H. destruct H as (a & b & p & q & -> & Ha & Hb).
  exists (String a (String b EmptyString)). split; [reflexivity|].
  eapply two_digits_short; eapply cls_digit; eauto.
Qed.

Lemma seq1_cls_short lo hi s v s' :
  In (v, s') (seq1 (cls lo hi) s) -> exists t, s = t ++ s' /\ short_group t.
Proof.
  intros H. apply seq1_inv in H. destruct H as (a & p & -> & Ha).
  exists (String a EmptyString). split; [reflexivity|].
  left. unfold field_value. rewrite (cls_digit _ _ _ _ Ha). eauto.
Qed.

Lemma seq2_blank_short lo hi s v s' :
  In (v, s') (seq2 blank (cls lo hi) s) -> exists t, s = t ++ s' /\ short_group t.
Proof.
  intros H. apply seq2_inv in H. destruct H as (a & b & p & q & -> & Ha & Hb).
  exists (String a (String b EmptyString)). split; [reflexivity|].
  right. unfold blank in Ha. destruct (Ascii.eqb a " ") eqn:E; [|discriminate Ha].
  apply Ascii.eqb_eq in E. subst. exists b, q. split; [reflexivity|].
  eapply cls_digit; eauto.
Qed.

Lemma alternatives_short x v s s' :
  x <> dY -> In (v, s') (alternatives x s) ->
  exists t, s = t ++ s' /\ short_group t.
Proof.
  intros Hx Hin.
  destruct x; [congruence| |]; unfold alternatives in Hin;
    repeat (apply in_app_or in Hin; destruct Hin as [Hin|Hin]);
    solve [ eapply seq2_cls_short; exact Hin
          | eapply seq1_cls_short; exact Hin
          | eapply seq2_blank_short; exact Hin ].
Qed.

Lemma alternatives_year v s s' :
  In (v, s') (alternatives dY s) -> exists t, s = t ++ s' /\ year_value t = Some v.
Proof.
  unfold alternatives, seq4.
  destruct s as [|a [|b [|c [|d r]]]]; simpl; try tauto.
  destruct (digit_of a) eqn:Ea; simpl; try tauto.
  destruct (digit_of b) eqn:Eb; simpl; try tauto.
  destruct (digit_of c) eqn:Ec; simpl; try tauto.
  destruct (digit_of d) eqn:Ed; simpl; try tauto.
  intros [H|[]]. injection H as <- <-.
  exists (String a (String b (String c (String d EmptyString)))).
  split; [reflexivity|]. unfold year_value. rewrite Ea, Eb, Ec, Ed. reflexivity.
Qed.

Lemma alternatives_group x v s s' :
  In (v, s') (alternatives x s) -> exists t, s = t ++ s' /\ group_text x t v.
Proof.
  destruct x.
  - apply alternatives_year.
  - intros H. apply alternatives_short in H; [exact H|discriminate].
  - intros H. apply alternatives_short in H; [exact H|discriminate].
Qed.

Lemma digit_not_separator c v : digit_of c = Some v -> is_separator c = false.
Proof.
  intros H. apply digit_of_char in H. destruct H as [-> Hr].
  each_digit Hr; reflexivity.
Qed.

Lemma group_text_no_separator x t v : group_text x t v -> no_separator t = true.
Proof.
  destruct x; cbn [group_text].
  - destruct t as [|a [|b [|c [|d [|]]]]]; unfold year_value; try discriminate.
    destruct (digit_of a) eqn:Ea; [|discriminate].
    destruct (digit_of b) eqn:Eb; [|discriminate].
    destruct (digit_of c) eqn:Ec; [|discriminate].
    destruct (digit_of d) eqn:Ed; [|discriminate].
    intros _. cbn [no_separator].
    rewrite (digit_not_separator _ _ Ea), (digit_not_separator _ _ Eb),
      (digit_not_separator _ _ Ec), (digit_not_separator _ _ Ed). reflexivity.
  - intros [[w H]|(c & w & -> & H)].
    + destruct t as [|a [|b [|]]]; unfold field_value in H; try discriminate.
      * cbn [no_separator]. rewrite (digit_not_separator _ _ H). reflexivity.
      * destruct (digit_of a) eqn:Ea; [|discriminate].
        destruct (digit_of b) eqn:Eb; [|discriminate].
        cbn [no_separator].
        rewrite (digit_not_separator _ _ Ea), (digit_not_separator _ _ Eb).
        reflexivity.
    + cbn [no_separator]. rewrite (digit_not_separator _ _ H). reflexivity.
  - intros [[w H]|(c & w & -> & H)].
    + destruct t as [|a [|b [|]]]; unfold field_value in H; try discriminate.
      * cbn [no_separator]. rewrite (digit_not_separator _ _ H). reflexivity.
      * destruct (digit_of a) eqn:Ea; [|discriminate].
        destruct (digit_of b) eqn:Eb; [|discriminate].
        cbn [no_separator].
        rewrite (digit_not_separator _ _ Ea), (digit_not_separator _ _ Eb).
        reflexivity.
    + cbn [no_separator]. rewrite (digit_not_separator _ _ H). reflexivity.
Qed.

Lemma re_split_no_separator t : no_separator t = true -> re_split t = [t].
Proof.
  induction t as [|c t IH]; [reflexivity|].
  cbn [no_separator re_split]. intros H. apply andb_true_iff in H.
  destruct H as [Hc Ht]. apply negb_true_iff in Hc. rewrite Hc, (IH Ht).
  reflexivity.
Qed.

Lemma re_split_field t c r :
  no_separator t = true -> is_separator c = true ->
  re_split (t ++ String c r) = t :: re_split r.
Proof.
  intros Ht Hc. induction t as [|c0 t IH].
  - cbn [append re_split]. rewrite Hc. reflexivity.
  - cbn [no_separator] in Ht. apply andb_true_iff in Ht.
    destruct Ht as [H0 Ht]. apply negb_true_iff in H0.
    cbn [append re_split]. rewrite H0, (IH Ht). reflexivity.
Qed.

(** A text that [strptime] accepts for a format of three directives has
    three fields, each one a text of its directive's group. *)
Lemma strptime_three_fields x1 x2 x3 c s dt :
  is_separator c = true ->
  strptime s [Dir x1; Lit c; Dir x2; Lit c; Dir x3] = Ok dt ->
  exists t1 t2 t3 v1 v2 v3,
    re_split s = [t1; t2; t3] /\
    group_text x1 t1 v1 /\ group_text x2 t2 v2 /\ group_text x3 t3 v3 /\
    year dt = or_default
                (gY (set_group x3 v3 (set_group x2 v2 (set_group x1 v1 no_groups))))
                1900.
Proof.
  intros Hc. unfold strptime.
  destruct (re_match _ s no_groups) as [[g [|c' r]]|] eqn:E; try discriminate.
  apply re_match_dir_inv in E. destruct E as (v1 & s1 & A1 & E).
  apply re_match_lit_inv in E. destruct E as (s2 & -> & E).
  apply re_match_dir_inv in E. destruct E as (v2 & s3 & A2 & E).
  apply re_match_lit_inv in E. destruct E as (s4 & -> & E).
  apply re_match_dir_inv in E. destruct E as (v3 & s5 & A3 & E).
  cbn [re_match] in E. injection E as <- ->.
  apply alternatives_group in A1, A2, A3.
  destruct A1 as (t1 & -> & G1), A2 as (t2 & -> & G2), A3 as (t3 & -> & G3).
  destruct (check_date_fields _ _ _); [|discriminate].
  intros H. injection H as <-.
  exists t1, t2, t3, v1, v2, v3.
  rewrite append_empty.
  rewrite (re_split_field t1) by eauto using group_text_no_separator.
  rewrite (re_split_field t2) by eauto using group_text_no_separator.
  rewrite (re_split_no_separator t3) by eauto using group_text_no_separator.
  repeat split; assumption.
Qed.

(** ** Two-digit years *)

(** C9 (amended): no explicit format takes a year of fewer or more than
    four digits: when one of the four formats of [parse_date] parses a text,
    the field of the text at the place of [%Y] is exactly four digits and is
    the year.  ["01/03/99"] fails the four formats; it then goes to the
    fallback parser and [parse_date] returns what that parser returns. *)
Theorem C9_explicit_formats_need_four_digit_year :
  forall (dateutil_parse : string -> bool -> result datetime),
    (forall s fmt dt,
       In fmt parse_formats -> strptime s fmt = Ok dt ->
       year_value (year_field fmt s) = Some (year dt)) /\
    (forall fmt, In fmt parse_formats -> raises (strptime "01/03/99" fmt)) /\
    (forall hint,
       parse_date dateutil_parse "01/03/99" hint
       = dateutil_parse "01/03/99"
           (match hint with Some DMY => true | _ => false end)).
Proof.
  intros o. split; [|split].
  - intros s fmt dt Hin Hs. unfold year_field.
    unfold parse_formats in Hin. cbn [In] in Hin.
    destruct Hin as [<-|[<-|[<-|[<-|[]]]]];
      apply strptime_three_fields in Hs; try reflexivity;
      destruct Hs as (t1 & t2 & t3 & v1 & v2 & v3 & -> & G1 & G2 & G3 & ->);
      cbn; assumption.
  - intros fmt Hin. unfold parse_formats in Hin. cbn [In] in Hin.
    destruct Hin as [<-|[<-|[<-|[<-|[]]]]]; eexists; reflexivity.
  - intros [[|]|]; unfold parse_date; cbn; destruct (o _ _); reflexivity.
Qed.

Lemma C9_witness :
  year_value (year_field fmt_m_d_Y "12/31/1999") = Some (year (date 1999 12 31)).
Proof.
  apply (proj1 (C9_explicit_formats_need_four_digit_year dateutil_observed)
           "12/31/1999" fmt_m_d_Y (date 1999 12 31)).
  - unfold parse_formats. simpl. tauto.
  - reflexivity.
Defined.

(** ["01/03/99"] is resolved: to 3 January 1999, by the fallback parser. *)
Lemma C9_counterexample :
  parse_date dateutil_observed "01/03/99" None = Ok (date 1999 1 3).
Proof. reflexivity. Qed.

(** ** The detector *)

Lemma digits_1_2_inv s a r :
  In (a, r) (digits_1_2 s) -> s = a ++ r /\ exists v, field_value a = Some v.
Proof.
  unfold digits_1_2.
  destruct s as [|c [|c' s]]; cbn [In]; try tauto.
  - unfold is_digit. destruct (digit_of c) eqn:E; cbn [In]; try tauto.
    intros [H|[]]. injection H as <- <-. split; [reflexivity|].
    unfold field_value. rewrite E. eauto.
  - unfold is_digit.
    destruct (digit_of c) eqn:E; cbn [In]; try tauto.
    destruct (digit_of c') eqn:E'; cbn [In].
    + intros [H|[H|[]]]; injection H as <- <-; (split; [reflexivity|]);
        unfold field_value; rewrite E, ?E'; eauto.
    + intros [H|[]]. injection H as <- <-. split; [reflexivity|].
      unfold field_value. rewrite E. eauto.
Qed.

Lemma after_sep_inv sep s r : after_sep sep s = Some r -> s = String sep r.
Proof.
  unfold after_sep. destruct s as [|c s]; [discriminate|].
  destruct (Ascii.eqb c sep) eqn:E; [|discriminate].
  apply Ascii.eqb_eq in E. subst. intros H. injection H as <-. reflexivity.
Qed.

Lemma digits_4_inv s y r :
  digits_4 s = Some (y, r) -> exists v, year_value y = Some v.
Proof.
  unfold digits_4. destruct s as [|a [|b [|c [|d s]]]]; try discriminate.
  unfold is_digit.
  destruct (digit_of a) eqn:Ea; [|discriminate].
  destruct (digit_of b) eqn:Eb; [|discriminate].
  destruct (digit_of c) eqn:Ec; [|discriminate].
  destruct (digit_of d) eqn:Ed; [|discriminate].
  cbn. intros H. injection H as <- <-.
  unfold year_value. rewrite Ea, Eb, Ec, Ed. eauto.
Qed.

Lemma match_date_at_sample sep s m :
  In sep MDY_PATTERNS -> match_date_at sep s = Some m ->
  exists va vb vy, date_sample m va vb vy.
Proof.
  intros Hsep H. unfold match_date_at in H.
  apply first_success_some in H. destruct H as [[a r1] [Ha H]].
  destruct (after_sep sep r1) as [r2|] eqn:E1; [|discriminate].
  apply first_success_some in H. destruct H as [[b r3] [Hb H]].
  destruct (after_sep sep r3) as [r4|] eqn:E2; [|discriminate].
  destruct (digits_4 r4) as [[y r5]|] eqn:E3; [|discriminate].
  injection H as <-.
  apply digits_1_2_inv in Ha, Hb. destruct Ha as [_ [va Ha]], Hb as [_ [vb Hb]].
  apply digits_4_inv in E3. destruct E3 as [vy Hy].
  exists va, vb, vy, sep, a, b, y. auto.
Qed.

Lemma findall_from_sample sep s : forall skip m,
  In sep MDY_PATTERNS -> In m (findall_from sep s skip) ->
  exists va vb vy, date_sample m va vb vy.
Proof.
  induction s as [|c s IH]; intros skip m Hsep; cbn [findall_from In]; [tauto|].
  destruct skip as [|k]; [|apply IH; assumption].
  destruct (match_date_at sep (String c s)) as [m'|] eqn:E.
  - cbn [In]. intros [<-|H].
    + eapply match_date_at_sample; eauto.
    + eapply IH; eauto.
  - apply IH; assumption.
Qed.

Lemma text_matches_sample text m :
  In m (text_matches text) -> exists va vb vy, date_sample m va vb vy.
Proof.
  unfold text_matches. intros H. apply in_flat_map in H.
  destruct H as [sep [Hsep H]]. eapply findall_from_sample; eauto.
Qed.

Lemma scan_elements_sample elements m :
  In m (scan_elements elements) -> exists va vb vy, date_sample m va vb vy.
Proof.
  induction elements as [|[[[|c t]|]|e] more IH]; cbn [scan_elements In];
    try tauto; try exact IH.
  intros H. apply in_app_or in H. destruct H as [H|H]; [|auto].
  eapply text_matches_sample; eauto.
Qed.

Lemma dates_found_sample page m :
  In m (dates_found page) -> exists va vb vy, date_sample m va vb vy.
Proof.
  unfold dates_found. intros H. apply in_flat_map in H.
  destruct H as [sel [_ H]].
  destruct (locator_all page sel) as [els|e]; [|destruct H].
  eapply scan_elements_sample; eauto.
Qed.

Lemma py_int_field a v : field_value a = Some v -> py_int a = Ok v.
Proof. intros Ha. field_cases a Ha; reflexivity. Qed.

Lemma scan_digits_digit c v s prev acc n :
  digit_of c = Some v ->
  scan_digits (String c s) prev acc n = scan_digits s false (10 * acc + v) (S n).
Proof.
  intros H. apply digit_of_char in H. destruct H as [-> Hr].
  each_digit Hr; reflexivity.
Qed.

Lemma py_int_digit_first a x s :
  digit_of a = Some x ->
  py_int (String a s) =
  match scan_digits (String a s) false 0 0 with
  | None => Raise (ValueError (InvalidLiteral (String a s)))
  | Some (v, n, rest) =>
      match n, lstrip rest with
      | O, _ => Raise (ValueError (InvalidLiteral (String a s)))
      | _, String _ _ => Raise (ValueError (InvalidLiteral (String a s)))
      | _, EmptyString =>
          if Nat.ltb int_max_str_digits n
          then Raise (ValueError TooManyDigits)
          else Ok (1 * v)
      end
  end.
Proof.
  intros H. apply digit_of_char in H. destruct H as [-> Hr].
  each_digit Hr; reflexivity.
Qed.

Lemma py_int_year y v : year_value y = Some v -> py_int y = Ok v.
Proof.
  destruct y as [|a [|b [|c [|d [|]]]]]; unfold year_value; try discriminate.
  destruct (digit_of a) as [x1|] eqn:Ea; [|discriminate].
  destruct (digit_of b) as [x2|] eqn:Eb; [|discriminate].
  destruct (digit_of c) as [x3|] eqn:Ec; [|discriminate].
  destruct (digit_of d) as [x4|] eqn:Ed; [|discriminate].
  intros H.
  assert (E : 1000 * x1 + 100 * x2 + 10 * x3 + x4 = v) by congruence.
  rewrite (py_int_digit_first a x1) by assumption.
  rewrite (scan_digits_digit a x1), (scan_digits_digit b x2),
    (scan_digits_digit c x3), (scan_digits_digit d x4) by assumption.
  cbn [scan_digits lstrip]. 
  change (Nat.ltb int_max_str_digits 4) with false. cbv iota.
  f_equal. lia.
Qed.

Lemma pattern_separator sep : In sep MDY_PATTERNS -> is_separator sep = true.
Proof. intros [<-|[<-|[<-|[]]]]; reflexivity. Qed.

Lemma field_no_separator t v : field_value t = Some v -> no_separator t = true.
Proof.
  intros H. apply (group_text_no_separator dm t 0). left. eauto.
Qed.

Lemma year_no_separator t v : year_value t = Some v -> no_separator t = true.
Proof. intros H. exact (group_text_no_separator dY t v H). Qed.

Lemma gtb_false x y : x <= y -> (x >? y) = false.
Proof. intros H. rewrite Z.gtb_ltb. apply Z.ltb_ge. exact H. Qed.

Lemma gtb_true x y : y < x -> (x >? y) = true.
Proof. intros H. rewrite Z.gtb_ltb. apply Z.ltb_lt. exact H. Qed.

(** One turn of the loop on a match of a pattern. *)
Lemma analyze_sample m va vb vy more :
  date_sample m va vb vy ->
  analyze (m :: more) =
  if va >? 12 then Ok DMY else if vb >? 12 then Ok MDY else analyze more.
Proof.
  intros (sep & a & b & y & Hsep & -> & Ha & Hb & Hy).
  pose proof (pattern_separator sep Hsep) as Hs.
  cbn [analyze].
  rewrite (re_split_field a) by eauto using field_no_separator.
  rewrite (re_split_field b) by eauto using field_no_separator.
  rewrite (re_split_no_separator y) by eauto using year_no_separator.
  rewrite (py_int_field a va), (py_int_field b vb), (py_int_year y vy) by assumption.
  reflexivity.
Qed.

Lemma analyze_total found :
  (forall m, In m found -> exists va vb vy, date_sample m va vb vy) ->
  exists h, analyze found = Ok h.
Proof.
  induction found as [|m more IH]; intros H; [cbn; eauto|].
  destruct (H m (or_introl eq_refl)) as (va & vb & vy & Hm).
  rewrite (analyze_sample m va vb vy more Hm).
  destruct (va >? 12); [eauto|]. destruct (vb >? 12); [eauto|].
  apply IH. intros m' Hin. apply H. right. exact Hin.
Qed.

Lemma analyze_undecided before : forall rest,
  (forall m va vb vy, In m before -> date_sample m va vb vy -> va <= 12 /\ vb <= 12) ->
  (forall m, In m before -> exists va vb vy, date_sample m va vb vy) ->
  analyze (before ++ rest)%list = analyze rest.
Proof.
  induction before as [|m before IH]; intros rest Hu Hs; [reflexivity|].
  destruct (Hs m (or_introl eq_refl)) as (va & vb & vy & Hm).
  destruct (Hu m va vb vy (or_introl eq_refl) Hm) as [H1 H2].
  cbn [app]. rewrite (analyze_sample m va vb vy _ Hm).
  rewrite (gtb_false va 12), (gtb_false vb 12) by assumption.
  apply IH.
  - intros m' a' b' y' Hin. apply Hu. right. exact Hin.
  - intros m' Hin. apply Hs. right. exact Hin.
Qed.

Lemma analyze_first_decisive before m after va vb vy :
  (forall m' a' b' y', In m' before -> date_sample m' a' b' y' -> a' <= 12 /\ b' <= 12) ->
  (forall m', In m' before -> exists a' b' y', date_sample m' a' b' y') ->
  date_sample m va vb vy ->
  (12 < va -> analyze (before ++ m :: after)%list = Ok DMY) /\
  (va <= 12 -> 12 < vb -> analyze (before ++ m :: after)%list = Ok MDY).
Proof.
  intros Hu Hs Hm. rewrite (analyze_undecided before _ Hu Hs).
  rewrite (analyze_sample m va vb vy after Hm). split.
  - intros H. rewrite (gtb_true va 12 H). reflexivity.
  - intros H1 H2. rewrite (gtb_false va 12 H1), (gtb_true vb 12 H2). reflexivity.
Qed.

(** C6: every text the detector extracts is a triple [(a, b, year)]; the
    triples are examined in order; the first one with [a > 12] gives DMY and
    the first one with [a <= 12] and [b > 12] gives MDY, whatever comes after
    it; when no triple is decisive, and when there is none at all, the answer
    is the default MDY; the detector returns a hint for every page and never
    raises. *)
Theorem C6_detector :
  forall page : Page,
    (forall m, In m (dates_found page) -> exists a b y, date_sample m a b y) /\
    (exists h, detect_page_date_format page = Ok h) /\
    (forall before m after a b y,
       dates_found page = (before ++ m :: after)%list ->
       (forall m' a' b' y',
          In m' before -> date_sample m' a' b' y' -> a' <= 12 /\ b' <= 12) ->
       date_sample m a b y ->
       (12 < a -> detect_page_date_format page = Ok DMY) /\
       (a <= 12 -> 12 < b -> detect_page_date_format page = Ok MDY)) /\
    (forall before m after a b y,
       (forall m', In m' before -> exists a' b' y', date_sample m' a' b' y') ->
       (forall m' a' b' y',
          In m' before -> date_sample m' a' b' y' -> a' <= 12 /\ b' <= 12) ->
       date_sample m a b y ->
       (12 < a -> analyze (before ++ m :: after)%list = Ok DMY) /\
       (a <= 12 -> 12 < b -> analyze (before ++ m :: after)%list = Ok MDY)) /\
    ((forall m a b y,
        In m (dates_found page) -> date_sample m a b y -> a <= 12 /\ b <= 12) ->
     detect_page_date_format page = Ok MDY) /\
    (dates_found page = [] -> detect_page_date_format page = Ok MDY) /\
    detect_page_date_format empty_page = Ok MDY /\
    detect_page_date_format posted_page = Ok DMY.
Proof.
  intros page. unfold detect_page_date_format.
  pose proof (dates_found_sample page) as Hs.
  split; [exact Hs|]. split; [apply analyze_total; exact Hs|].
  split; [|split; [|split; [|split; [|split]]]].
  - intros before m after a b y E Hu Hm. rewrite E.
    apply (analyze_first_decisive before m after a b y); auto.
    intros m' Hin. apply Hs. rewrite E. apply in_or_app. left. exact Hin.
  - intros before m after a b y Hb Hu Hm.
    apply (analyze_first_decisive before m after a b y); auto.
  - intros Hu. rewrite <- (app_nil_r (dates_found page)).
    rewrite (analyze_undecided (dates_found page) [] Hu Hs). reflexivity.
  - intros ->. reflexivity.
  - reflexivity.
  - reflexivity.
Qed.

Lemma C6_witness :
  detect_page_date_format posted_page = Ok DMY.
Proof.
  apply (proj1 (proj2 (proj2 (C6_detector posted_page)))
           [] "13/01/2025" ["02/02/2025"] 13 1 2025 eq_refl).
  - intros m' a' b' y' [].
  - exists "/"%char, "13", "01", "2025". cbn. repeat split; auto.
  - lia.
Defined.

(** * Further properties *)

(** ** Texts that no explicit format of [parse_date] takes *)

Lemma re_split_three sep a b y va vb vy :
  is_separator sep = true ->
  field_value a = Some va -> field_value b = Some vb -> year_value y = Some vy ->
  re_split (sep_text sep a b y) = [a; b; y].
Proof.
  intros Hs Ha Hb Hy. unfold sep_text.
  rewrite (re_split_field a) by eauto using field_no_separator.
  rewrite (re_split_field b) by eauto using field_no_separator.
  rewrite (re_split_no_separator y) by eauto using year_no_separator.
  reflexivity.
Qed.

Lemma guess_dayfirst_three sep a b y va vb vy :
  is_separator sep = true ->
  field_value a = Some va -> field_value b = Some vb -> year_value y = Some vy ->
  guess_dayfirst (sep_text sep a b y) = Ok (va >? 12).
Proof.
  intros Hs Ha Hb Hy. unfold guess_dayfirst.
  rewrite (re_split_three sep a b y va vb vy) by assumption.
  rewrite (py_int_field a va Ha). reflexivity.
Qed.

Lemma build_value_error y m d :
  (exists dt, build y m d = Ok dt /\ check_date_fields y m d = true) \/
  (build y m d = Raise (ValueError OutOfRange) /\ check_date_fields y m d = false).
Proof.
  unfold build. destruct (check_date_fields y m d); [left|right]; eauto.
Qed.

Lemma check_day_month_ok y m d :
  check_date_fields y m d = true -> day_ok d = true /\ month_ok m = true.
Proof.
  intros H. apply check_date_fields_spec in H.
  pose proof (days_in_month_bounds y m).
  unfold day_ok, month_ok. rewrite !andb_true_iff, !Z.leb_le. lia.
Qed.

(** X1: a text [a/b/YYYY] of which neither the day-first nor the
    month-first reading is a date of the calendar (as ["31/02/2025"]) is not
    refused by [parse_date] itself: the four formats fail and the text goes to
    the fallback parser, with [dayfirst] from the hint, or from [a > 12] when
    there is no hint. *)
Theorem X1_impossible_slash_date_goes_to_fallback :
  forall (dateutil_parse : string -> bool -> result datetime)
         (a b y : string) (va vb vy : Z) (hint : option format_hint),
    field_value a = Some va -> field_value b = Some vb -> year_value y = Some vy ->
    check_date_fields vy vb va = false -> check_date_fields vy va vb = false ->
    parse_date dateutil_parse (slash_text a b y) hint
    = dateutil_parse (slash_text a b y) (fallback_dayfirst hint va).
Proof.
  intros o a b y va vb vy hint Ha Hb Hy H1 H2. unfold parse_date.
  rewrite (iso_re_match_slash a b y va) by auto.
  unfold try_formats.
  change fmt_Y_m_d with (Dir dY :: Lit "-"%char :: Dir dm :: Lit "-"%char :: [Dir dd]).
  change fmt_Ys_m_d with (Dir dY :: Lit "/"%char :: Dir dm :: Lit "/"%char :: [Dir dd]).
  rewrite !(strptime_Y_first_slash a b y va) by auto.
  rewrite (strptime_d_m_Y_slash a b y va vb vy),
    (strptime_m_d_Y_slash a b y va vb vy) by auto.
  unfold build. rewrite H1, H2.
  destruct (day_ok va && month_ok vb), (month_ok va && day_ok vb);
    (destruct hint as [f|]; cbn [bind fallback_dayfirst];
     [ reflexivity
     | change (slash_text a b y) with (sep_text "/" a b y);
       rewrite (guess_dayfirst_three "/" a b y va vb vy) by auto; reflexivity ]).
Qed.

Lemma X1_witness :
  parse_date dateutil_observed "31/02/2025" None
  = dateutil_observed "31/02/2025" true.
Proof.
  apply (X1_impossible_slash_date_goes_to_fallback dateutil_observed
           "31" "02" "2025" 31 2 2025 None eq_refl eq_refl eq_refl eq_refl eq_refl).
Defined.

Lemma separator_cases c :
  is_separator c = true -> c = "/"%char \/ c = "-"%char \/ c = "."%char.
Proof.
  destruct c as [[] [] [] [] [] [] [] []]; simpl; intro H;
    try discriminate; auto.
Qed.

Ltac stuck_strings :=
  repeat match goal with
         | |- context [match ?r with EmptyString => _ | String _ _ => _ end] =>
             destruct r; cbn
         end;
  repeat match goal with
         | |- context [if ?b then _ else _] => destruct b; cbn
         end.

Lemma iso_re_match_field a v c rest :
  field_value a = Some v -> is_separator c = true ->
  iso_re_match (a ++ String c rest) = false.
Proof.
  intros Ha Hc. apply separator_cases in Hc.
  destruct Hc as [-> | [-> | ->]]; field_cases a Ha; cbn; stuck_strings; reflexivity.
Qed.

Lemma re_match_dY_field a v c fmt rest g :
  field_value a = Some v -> is_separator c = true ->
  re_match (Dir dY :: fmt) (a ++ String c rest) g = None.
Proof.
  intros Ha Hc. apply separator_cases in Hc.
  destruct Hc as [-> | [-> | ->]]; field_cases a Ha; cbn; stuck_strings; reflexivity.
Qed.

(** A field followed by another separator than the one of the format. *)
Lemma re_match_other_separator x a v c c' fmt rest g :
  x <> dY -> field_value a = Some v ->
  is_separator c = true -> is_separator c' = true -> c <> c' ->
  re_match (Dir x :: Lit c' :: fmt) (a ++ String c rest) g = None.
Proof.
  intros Hx Ha Hc Hc' Hne. apply separator_cases in Hc, Hc'.
  destruct x; [congruence| |];
    destruct Hc as [-> | [-> | ->]]; destruct Hc' as [-> | [-> | ->]];
    try congruence; field_cases a Ha; reflexivity.
Qed.

Lemma strptime_no_match_value_error s fmt :
  re_match fmt s no_groups = None ->
  strptime s fmt = Raise (ValueError (NoMatch s)).
Proof. unfold strptime. intros ->. reflexivity. Qed.

(** X2: a text [a-b-YYYY] or [a.b.YYYY] is taken by none of the four
    explicit formats of [parse_date]; it goes to the fallback parser, read
    day first or month first as the hint says and, without hint, day first
    exactly when [a > 12]. *)
Theorem X2_dashed_year_last_goes_to_fallback :
  forall (dateutil_parse : string -> bool -> result datetime)
         (sep : ascii) (a b y : string) (va vb vy : Z) (hint : option format_hint),
    dash_or_dot sep ->
    field_value a = Some va -> field_value b = Some vb -> year_value y = Some vy ->
    parse_date dateutil_parse (sep_text sep a b y) hint
    = dateutil_parse (sep_text sep a b y) (fallback_dayfirst hint va).
Proof.
  intros o sep a b y va vb vy hint Hsep Ha Hb Hy.
  assert (Hs : is_separator sep = true) by (destruct Hsep as [-> | ->]; reflexivity).
  assert (Hn : sep <> "/"%char) by (destruct Hsep as [-> | ->]; discriminate).
  unfold parse_date.
  unfold sep_text at 1. rewrite (iso_re_match_field a va) by auto.
  unfold try_formats.
  rewrite (strptime_no_match_value_error _ fmt_Y_m_d)
    by (apply (re_match_dY_field a va); auto).
  rewrite (strptime_no_match_value_error _ fmt_d_m_Y)
    by (apply (re_match_other_separator dd a va); auto; discriminate).
  rewrite (strptime_no_match_value_error _ fmt_m_d_Y)
    by (apply (re_match_other_separator dm a va); auto; discriminate).
  rewrite (strptime_no_match_value_error _ fmt_Ys_m_d)
    by (apply (re_match_dY_field a va); auto).
  destruct hint as [f|]; cbn [bind fallback_dayfirst]; [reflexivity|].
  rewrite (guess_dayfirst_three sep a b y va vb vy) by auto. reflexivity.
Qed.

Lemma X2_witness :
  parse_date dateutil_observed "15-02-2025" None
  = dateutil_observed "15-02-2025" true.
Proof.
  apply (X2_dashed_year_last_goes_to_fallback dateutil_observed
           "-" "15" "02" "2025" 15 2 2025 None (or_introl eq_refl)
           eq_refl eq_refl eq_refl).
Defined.

(** ** Texts that match the ISO pattern *)

Ltac pair_cases a Ha :=
  let x := fresh "x" in let y := fresh "y" in
  let H1 := fresh "H1" in let H2 := fresh "H2" in
  let Hx := fresh "Hx" in let Hy := fresh "Hy" in
  destruct a as [|? [|? [|? ?]]]; unfold pair_value, field_value in Ha;
  try discriminate;
  match type of Ha with
  | context [digit_of ?a1] =>
      destruct (digit_of a1) as [x|] eqn:H1; try discriminate
  end;
  match type of Ha with
  | context [digit_of ?a2] =>
      destruct (digit_of a2) as [y|] eqn:H2; try discriminate
  end;
  inversion Ha; subst;
  apply digit_of_char in H1, H2;
  destruct H1 as [-> Hx], H2 as [-> Hy];
  each_digit Hx; each_digit Hy.

Lemma two_digits_pair a v : pair_value a = Some v -> two_digits v = a.
Proof. intros Ha. pair_cases a Ha; reflexivity. Qed.

Lemma four_digits_year y v : year_value y = Some v -> four_digits v = y.
Proof.
  destruct y as [|a [|b [|c [|d [|]]]]]; unfold year_value; try discriminate.
  destruct (digit_of a) as [x1|] eqn:Ea; [|discriminate].
  destruct (digit_of b) as [x2|] eqn:Eb; [|discriminate].
  destruct (digit_of c) as [x3|] eqn:Ec; [|discriminate].
  destruct (digit_of d) as [x4|] eqn:Ed; [|discriminate].
  intros H.
  assert (E : 1000 * x1 + 100 * x2 + 10 * x3 + x4 = v) by congruence.
  apply digit_of_char in Ea, Eb, Ec, Ed.
  destruct Ea as [-> ?], Eb as [-> ?], Ec as [-> ?], Ed as [-> ?].
  unfold four_digits.
  replace (v / 1000) with x1 by (Z.to_euclidean_division_equations; lia).
  replace (v / 100 mod 10) with x2 by (Z.to_euclidean_division_equations; lia).
  replace (v / 10 mod 10) with x3 by (Z.to_euclidean_division_equations; lia).
  replace (v mod 10) with x4 by (Z.to_euclidean_division_equations; lia).
  reflexivity.
Qed.

(** The day at the end of a format, on two digits and what follows them. *)
Lemma re_match_dd_tail a v tl g g' :
  pair_value a = Some v ->
  re_match [Dir dd] (a ++ tl) g = Some (g', EmptyString) ->
  tl = EmptyString /\ g' = set_group dd v g /\ day_ok v = true.
Proof.
  intros Ha. pair_cases a Ha; cbn; intros H;
    solve [ discriminate H
          | injection H as <- ->; repeat split ].
Qed.

Lemma re_match_dd_left_over a v c tl g :
  pair_value a = Some v ->
  match re_match [Dir dd] (a ++ String c tl) g with
  | Some (_, String _ _) => True
  | Some (_, EmptyString) => False
  | None => True
  end.
Proof. intros Ha. pair_cases a Ha; cbn; exact I. Qed.

Lemma iso_re_match_inv s :
  iso_re_match s = true ->
  exists y m d tl vy vm vd,
    s = iso_text y m (d ++ tl) /\ at_end tl = true /\
    year_value y = Some vy /\ pair_value m = Some vm /\ pair_value d = Some vd.
Proof.
  unfold iso_re_match.
  destruct s as [|y1 [|y2 [|y3 [|y4 [|h1 [|m1 [|m2 [|h2 [|d1 [|d2 tl]]]]]]]]]];
    cbn [re_seq];
    repeat match goal with
           | |- context [if ?b then _ else _] => destruct b eqn:?; try discriminate
           end; try discriminate.
  intros Hend.
  repeat match goal with
         | H : Ascii.eqb _ _ = true |- _ => apply Ascii.eqb_eq in H; subst
         end.
  repeat match goal with
         | H : is_digit ?c = true |- _ =>
             unfold is_digit in H;
             let v := fresh "v" in
             destruct (digit_of c) as [v|] eqn:?; [clear H | discriminate H]
         end.
  exists (String y1 (String y2 (String y3 (String y4 EmptyString)))),
    (String m1 (String m2 EmptyString)), (String d1 (String d2 EmptyString)), tl.
  unfold year_value, pair_value, field_value.
  repeat match goal with H : digit_of _ = Some _ |- _ => rewrite H; clear H end.
  do 3 eexists. repeat split. exact Hend.
Qed.

Lemma parse_date_iso_pattern dateutil_parse s hint :
  iso_re_match s = true ->
  (exists vy vm vd,
     parse_date dateutil_parse s hint = Ok (date vy vm vd) /\
     check_date_fields vy vm vd = true /\
     s = iso_text (four_digits vy) (two_digits vm) (two_digits vd)) \/
  (exists e, parse_date dateutil_parse s hint = Raise (ValueError e)).
Proof.
  intros Hiso. unfold parse_date. rewrite Hiso.
  apply iso_re_match_inv in Hiso.
  destruct Hiso as (y & m & d & tl & vy & vm & vd & -> & Hend & Hy & Hm & Hd).
  unfold strptime, fmt_Y_m_d, iso_text.
  rewrite (re_match_dY y vy) by auto. rewrite re_match_lit.
  rewrite (re_match_dm_lit m vm) by (auto using pair_value_field; right; reflexivity).
  destruct ((1 <=? vm) && (vm <=? 12)); [|right; eauto].
  destruct (re_match [Dir dd] (d ++ tl) _) as [[g' [|c r]]|] eqn:E;
    [|right; eauto|right; eauto].
  apply (re_match_dd_tail d vd) in E; [|assumption].
  destruct E as (-> & -> & Hdo). cbn [set_group gY gm gd no_groups or_default].
  destruct (check_date_fields vy vm vd) eqn:Hc; [left|right; eauto].
  exists vy, vm, vd. split; [reflexivity|]. split; [exact Hc|].
  rewrite append_empty, (four_digits_year y vy Hy),
    (two_digits_pair m vm Hm), (two_digits_pair d vd Hd). reflexivity.
Qed.

(** X3: on a text that matches the ISO pattern and parses,
    [format_for_api] is the identity (where the platform does not pad [%Y],
    for a year of 1000 or later). *)
Theorem X3_format_for_api_keeps_iso_text :
  forall (pad_year : bool) (dateutil_parse : string -> bool -> result datetime)
         (s : string) (dt : datetime),
    iso_re_match s = true ->
    parse_date dateutil_parse s None = Ok dt ->
    pad_year = true \/ 1000 <= year dt ->
    format_for_api pad_year dateutil_parse s = Ok s.
Proof.
  intros pad o s dt Hiso Hp Hy. unfold format_for_api. rewrite Hp. cbn [bind].
  destruct (parse_date_iso_pattern o s None Hiso)
    as [(vy & vm & vd & E & Hc & Hs)|[e E]]; rewrite E in Hp; [|discriminate].
  injection Hp as <-. rewrite strftime_Y_m_d. cbn [year month day date] in *.
  apply check_date_fields_spec in Hc.
  assert (R : render_year pad vy = four_digits vy).
  { destruct Hy as [-> | Hy]; [reflexivity|]. apply render_year_four. lia. }
  rewrite R, <- Hs. reflexivity.
Qed.

Lemma X3_witness :
  format_for_api false dateutil_observed "2024-02-29" = Ok "2024-02-29".
Proof.
  apply (X3_format_for_api_keeps_iso_text false dateutil_observed
           "2024-02-29" (date 2024 2 29) eq_refl eq_refl).
  right. simpl. lia.
Defined.

Lemma iso_re_match_newline y m d vy vm vd :
  year_value y = Some vy -> pair_value m = Some vm -> pair_value d = Some vd ->
  iso_re_match (iso_text y m (d ++ String newline EmptyString)) = true.
Proof.
  intros Hy Hm Hd.
  destruct y as [|y1 [|y2 [|y3 [|y4 [|]]]]]; unfold year_value in Hy; try discriminate.
  destruct m as [|m1 [|m2 [|]]]; unfold pair_value, field_value in Hm; try discriminate.
  destruct d as [|d1 [|d2 [|]]]; unfold pair_value, field_value in Hd; try discriminate.
  unfold iso_re_match, iso_text. cbn [append re_seq].
  destruct (digit_of y1) eqn:E1; [|discriminate].
  destruct (digit_of y2) eqn:E2; [|discriminate].
  destruct (digit_of y3) eqn:E3; [|discriminate].
  destruct (digit_of y4) eqn:E4; [|discriminate].
  destruct (digit_of m1) eqn:E5; [|discriminate].
  destruct (digit_of m2) eqn:E6; [|discriminate].
  destruct (digit_of d1) eqn:E7; [|discriminate].
  destruct (digit_of d2) eqn:E8; [|discriminate].
  rewrite (digit_of_is_digit _ _ E1), (digit_of_is_digit _ _ E2),
    (digit_of_is_digit _ _ E3), (digit_of_is_digit _ _ E4),
    (digit_of_is_digit _ _ E5), (digit_of_is_digit _ _ E6),
    (digit_of_is_digit _ _ E7), (digit_of_is_digit _ _ E8).
  reflexivity.
Qed.

(** X4: a text that matches the ISO pattern never reaches the other
    formats nor the fallback parser: [parse_date] returns the date the text
    spells, or raises [ValueError] (month 13, 30 February).  The pattern also
    accepts a newline after the ten characters, and then [parse_date] always
    raises [ValueError], also when the ten characters are a date. *)
Theorem X4_iso_pattern_parses_or_raises :
  forall (dateutil_parse : string -> bool -> result datetime),
    (forall s hint,
       iso_re_match s = true ->
       (exists vy vm vd,
          parse_date dateutil_parse s hint = Ok (date vy vm vd) /\
          check_date_fields vy vm vd = true /\
          s = iso_text (four_digits vy) (two_digits vm) (two_digits vd)) \/
       (exists e, parse_date dateutil_parse s hint = Raise (ValueError e))) /\
    (forall y m d vy vm vd hint,
       year_value y = Some vy -> pair_value m = Some vm -> pair_value d = Some vd ->
       iso_re_match (iso_text y m (d ++ String newline EmptyString)) = true /\
       exists e,
         parse_date dateutil_parse
           (iso_text y m (d ++ String newline EmptyString)) hint
         = Raise (ValueError e)).
Proof.
  intros o. split.
  - intros s hint. apply parse_date_iso_pattern.
  - intros y m d vy vm vd hint Hy Hm Hd.
    pose proof (iso_re_match_newline y m d vy vm vd Hy Hm Hd) as Hiso.
    split; [exact Hiso|].
    unfold parse_date. rewrite Hiso.
    unfold strptime, fmt_Y_m_d, iso_text.
    rewrite (re_match_dY y vy) by auto. rewrite re_match_lit.
    rewrite (re_match_dm_lit m vm) by (auto using pair_value_field; right; reflexivity).
    destruct ((1 <=? vm) && (vm <=? 12)); [|eauto].
    pose proof (re_match_dd_left_over d vd newline EmptyString
                  (set_group dm vm (set_group dY vy no_groups)) Hd) as L.
    destruct (re_match [Dir dd] _ _) as [[g' [|c r]]|]; [destruct L|eauto|eauto].
Qed.

Lemma X4_witness :
  iso_re_match (iso_text "2025" "03" ("08" ++ String newline EmptyString)) = true /\
  exists e,
    parse_date dateutil_observed
      (iso_text "2025" "03" ("08" ++ String newline EmptyString)) (Some DMY)
    = Raise (ValueError e).
Proof.
  apply (proj2 (X4_iso_pattern_parses_or_raises dateutil_observed)
           "2025" "03" "08" 2025 3 8 (Some DMY) eq_refl eq_refl eq_refl).
Defined.

(** ** [to_page_format] *)

Section PageFormatSlash.

Variable pad_year : bool.
Variable dateutil_parse : string -> bool -> result datetime.
Variables (a b y : string) (va vb vy : Z).
Hypothesis Ha : field_value a = Some va.
Hypothesis Hb : field_value b = Some vb.
Hypothesis Hy : year_value y = Some vy.

Lemma to_page_format_day_first f :
  check_date_fields vy vb va = true ->
  to_page_format pad_year dateutil_parse (slash_text a b y) f
  = strftime pad_year (date vy vb va) (page_format f).
Proof.
  intros Hc. destruct (check_day_month_ok _ _ _ Hc) as [Hd Hm].
  unfold to_page_format, try_formats.
  rewrite (strptime_d_m_Y_slash a b y va vb vy) by auto.
  rewrite Hd, Hm. unfold build. rewrite Hc. destruct f; reflexivity.
Qed.

Lemma to_page_format_month_first f :
  month_ok vb = false -> check_date_fields vy va vb = true ->
  to_page_format pad_year dateutil_parse (slash_text a b y) f
  = strftime pad_year (date vy va vb) (page_format f).
Proof.
  intros Hnm Hc. destruct (check_day_month_ok _ _ _ Hc) as [Hd Hm].
  unfold to_page_format, try_formats.
  rewrite (strptime_d_m_Y_slash a b y va vb vy) by auto.
  rewrite Hnm, andb_false_r.
  rewrite (strptime_m_d_Y_slash a b y va vb vy) by auto.
  rewrite Hd, Hm. unfold build. rewrite Hc. destruct f; reflexivity.
Qed.

End PageFormatSlash.

(** X6: [to_page_format] applied to its own output.  A day-first text
    [DD/MM/YYYY] is kept by the target DMY and turned into [MM/DD/YYYY] by
    the target MDY.  A month-first text [MM/DD/YYYY] is read day first when
    its day is at most 12: the target MDY then exchanges its two fields and
    the target DMY returns it unchanged; only when the day is above 12 is it
    kept by MDY and turned into [DD/MM/YYYY] by DMY. *)
Theorem X6_page_format_of_page_format :
  forall (pad_year : bool) (dateutil_parse : string -> bool -> result datetime)
         (y m d : Z),
    check_date_fields y m d = true -> 1000 <= y ->
    let dmy := strftime pad_year (date y m d) fmt_d_m_Y in
    let mdy := strftime pad_year (date y m d) fmt_m_d_Y in
    to_page_format pad_year dateutil_parse dmy DMY = dmy /\
    to_page_format pad_year dateutil_parse dmy MDY = mdy /\
    to_page_format pad_year dateutil_parse mdy MDY = (if d <=? 12 then dmy else mdy) /\
    to_page_format pad_year dateutil_parse mdy DMY = (if d <=? 12 then mdy else dmy).
Proof.
  intros pad o y m d Hc Hy dmy mdy. subst dmy mdy.
  pose proof Hc as Hr. apply check_date_fields_spec in Hr.
  pose proof (days_in_month_bounds y m) as Hb.
  assert (Hfy : year_value (render_year pad y) = Some y)
    by (rewrite render_year_four by lia; apply year_value_four_digits; lia).
  assert (Hfm : field_value (two_digits m) = Some m)
    by (apply field_value_two_digits; lia).
  assert (Hfd : field_value (two_digits d) = Some d)
    by (apply field_value_two_digits; lia).
  rewrite !strftime_d_m_Y, !strftime_m_d_Y. cbn [year month day date].
  split; [|split].
  - rewrite (to_page_format_day_first pad o _ _ _ d m y) by auto.
    cbn [page_format]. rewrite strftime_d_m_Y. reflexivity.
  - rewrite (to_page_format_day_first pad o _ _ _ d m y) by auto.
    cbn [page_format]. rewrite strftime_m_d_Y. reflexivity.
  - destruct (d <=? 12) eqn:Hd.
    + apply Z.leb_le in Hd.
      assert (Hc' : check_date_fields y d m = true).
      { apply check_date_fields_spec. pose proof (days_in_month_bounds y d). lia. }
      rewrite !(to_page_format_day_first pad o _ _ _ m d y) by auto.
      cbn [page_format]. rewrite strftime_d_m_Y, strftime_m_d_Y. split; reflexivity.
    + apply Z.leb_gt in Hd.
      assert (Hnm : month_ok d = false).
      { unfold month_ok. apply andb_false_iff. right. apply Z.leb_gt. lia. }
      rewrite !(to_page_format_month_first pad o _ _ _ m d y) by auto.
      cbn [page_format]. rewrite strftime_d_m_Y, strftime_m_d_Y. split; reflexivity.
Qed.

Lemma X6_witness :
  to_page_format true dateutil_observed "03/08/2025" MDY = "08/03/2025" /\
  to_page_format true dateutil_observed "03/08/2025" DMY = "03/08/2025".
Proof.
  exact (proj2 (proj2 (X6_page_format_of_page_format true dateutil_observed
                         2025 3 8 eq_refl ltac:(lia)))).
Defined.

Section PageFormatDash.

Variable pad_year : bool.
Variable dateutil_parse : string -> bool -> result datetime.
Variables (a b y : string) (va vb vy : Z).
Hypothesis Ha : field_value a = Some va.
Hypothesis Hb : field_value b = Some vb.
Hypothesis Hy : year_value y = Some vy.

Lemma strptime_d_m_Y_dash :
  strptime (sep_text "-" a b y) fmt_d_m_Y_dash =
  if day_ok va && month_ok vb then build vy vb va
  else Raise (ValueError (NoMatch (sep_text "-" a b y))).
Proof.
  unfold strptime, fmt_d_m_Y_dash, sep_text, day_ok, month_ok.
  rewrite (re_match_dd_lit a va) by (auto; right; reflexivity).
  destruct ((1 <=? va) && (va <=? 31)); [|reflexivity].
  rewrite (re_match_dm_lit b vb) by (auto; right; reflexivity).
  destruct ((1 <=? vb) && (vb <=? 12)); [|reflexivity].
  rewrite (re_match_dY_end y vy) by auto. reflexivity.
Qed.

Lemma strptime_m_d_Y_dash :
  strptime (sep_text "-" a b y) fmt_m_d_Y_dash =
  if month_ok va && day_ok vb then build vy va vb
  else Raise (ValueError (NoMatch (sep_text "-" a b y))).
Proof.
  unfold strptime, fmt_m_d_Y_dash, sep_text, day_ok, month_ok.
  rewrite (re_match_dm_lit a va) by (auto; right; reflexivity).
  destruct ((1 <=? va) && (va <=? 12)); [|reflexivity].
  rewrite (re_match_dd_lit b vb) by (auto; right; reflexivity).
  destruct ((1 <=? vb) && (vb <=? 31)); [|reflexivity].
  rewrite (re_match_dY_end y vy) by auto. reflexivity.
Qed.

Lemma try_page_formats_dash :
  try_formats (sep_text "-" a b y) page_formats
  = try_formats (sep_text "-" a b y) [fmt_d_m_Y_dash; fmt_m_d_Y_dash].
Proof.
  unfold page_formats. cbn [try_formats].
  rewrite (strptime_no_match_value_error _ fmt_d_m_Y)
    by (apply (re_match_other_separator dd a va); auto; discriminate).
  rewrite (strptime_no_match_value_error _ fmt_m_d_Y)
    by (apply (re_match_other_separator dm a va); auto; discriminate).
  rewrite (strptime_no_match_value_error _ fmt_Y_m_d)
    by (apply (re_match_dY_field a va); auto).
  reflexivity.
Qed.

End PageFormatDash.

(** X7: [to_page_format] parses a text [a-b-YYYY] by itself, with
    ["%d-%m-%Y"] before ["%m-%d-%Y"]: it is read day first whenever that is a
    date of the calendar, and month first when [b] is above 12 and that
    reading is a date; the result is the date written in the target format.
    ([parse_date] has no such format: see X2.) *)
Theorem X7_page_format_reads_dashes_day_first :
  forall (pad_year : bool) (dateutil_parse : string -> bool -> result datetime)
         (a b y : string) (va vb vy : Z) (f : format_hint),
    field_value a = Some va -> field_value b = Some vb -> year_value y = Some vy ->
    (check_date_fields vy vb va = true ->
     to_page_format pad_year dateutil_parse (sep_text "-" a b y) f
     = strftime pad_year (date vy vb va) (page_format f)) /\
    (12 < vb -> check_date_fields vy va vb = true ->
     to_page_format pad_year dateutil_parse (sep_text "-" a b y) f
     = strftime pad_year (date vy va vb) (page_format f)).
Proof.
  intros pad o a b y va vb vy f Ha Hb Hy.
  assert (E : forall r,
             try_formats (sep_text "-" a b y) page_formats = Some (Ok r) ->
             to_page_format pad o (sep_text "-" a b y) f
             = strftime pad r (page_format f)).
  { intros r Hr. unfold to_page_format. fold page_formats. rewrite Hr.
    destruct f; reflexivity. }
  split.
  - intros Hc. apply E. rewrite (try_page_formats_dash a b y va) by auto.
    cbn [try_formats]. rewrite (strptime_d_m_Y_dash a b y va vb vy) by auto.
    destruct (check_day_month_ok _ _ _ Hc) as [-> ->].
    unfold build. rewrite Hc. reflexivity.
  - intros Hvb Hc. apply E. rewrite (try_page_formats_dash a b y va) by auto.
    cbn [try_formats]. rewrite (strptime_d_m_Y_dash a b y va vb vy) by auto.
    assert (Hnm : month_ok vb = false).
    { unfold month_ok. apply andb_false_iff. right. apply Z.leb_gt. lia. }
    rewrite Hnm, andb_false_r.
    rewrite (strptime_m_d_Y_dash a b y va vb vy) by auto.
    destruct (check_day_month_ok _ _ _ Hc) as [-> ->].
    unfold build. rewrite Hc. reflexivity.
Qed.

Lemma X7_witness :
  to_page_format true dateutil_observed (sep_text "-" "08" "03" "2025") MDY
  = strftime true (date 2025 3 8) (page_format MDY).
Proof.
  apply (proj1 (X7_page_format_reads_dashes_day_first true dateutil_observed
                  "08" "03" "2025" 8 3 2025 MDY eq_refl eq_refl eq_refl)).
  reflexivity.
Defined.

Lemma strptime_outcome s fmt :
  (exists dt, strptime s fmt = Ok dt) \/
  (exists e, strptime s fmt = Raise (ValueError e)).
Proof.
  unfold strptime.
  destruct (re_match fmt s no_groups) as [[g [|c r]]|]; eauto.
  destruct (check_date_fields _ _ _); eauto.
Qed.

Lemma short_not_year t v : short_group t -> year_value t = Some v -> False.
Proof.
  intros [[w H]|(c & w & -> & H)] Hy.
  - destruct t as [|a [|b [|c [|d [|]]]]]; unfold field_value in H;
      unfold year_value in Hy; discriminate.
  - discriminate Hy.
Qed.

(** A text that ["%Y-%m-%d"] parses is parsed by no format that starts
    with a day or a month. *)
Lemma year_first_excludes_short_first x1 x2 x3 c s dt dt' :
  x1 <> dY -> is_separator c = true ->
  strptime s fmt_Y_m_d = Ok dt ->
  strptime s [Dir x1; Lit c; Dir x2; Lit c; Dir x3] = Ok dt' -> False.
Proof.
  intros Hx Hc H1 H2.
  apply strptime_three_fields in H1; [|reflexivity].
  apply strptime_three_fields in H2; [|assumption].
  destruct H1 as (t1 & t2 & t3 & v1 & v2 & v3 & E1 & G1 & _).
  destruct H2 as (u1 & u2 & u3 & w1 & w2 & w3 & E2 & K1 & _).
  rewrite E1 in E2. injection E2 as <- <- <-.
  cbn [group_text] in G1. destruct x1; [congruence| |];
    cbn [group_text] in K1; exact (short_not_year _ _ K1 G1).
Qed.

Lemma iso_excludes_short_first x1 x2 x3 c s dt :
  x1 <> dY -> is_separator c = true ->
  iso_re_match s = true ->
  strptime s [Dir x1; Lit c; Dir x2; Lit c; Dir x3] = Ok dt -> False.
Proof.
  intros Hx Hc Hiso H.
  apply iso_re_match_inv in Hiso.
  destruct Hiso as (y & m & d & tl & vy & vm & vd & -> & _ & Hy & _).
  apply strptime_three_fields in H; [|assumption].
  destruct H as (u1 & u2 & u3 & w1 & w2 & w3 & E & K1 & _).
  unfold iso_text in E.
  rewrite (re_split_field y) in E by (eauto using year_no_separator).
  injection E as <- _.
  destruct x1; [congruence| |]; cbn [group_text] in K1;
    exact (short_not_year _ _ K1 Hy).
Qed.

(** X5: when one of ["%Y-%m-%d"], ["%d/%m/%Y"], ["%m/%d/%Y"] parses a
    text (the first of them, in this order), [parse_date] returns that date
    under every hint and [to_page_format] returns that same date written in
    the target format: the two functions read the text alike although they
    try the formats in different orders. *)
Theorem X5_page_format_agrees_with_parse_date :
  forall (pad_year : bool) (dateutil_parse : string -> bool -> result datetime)
         (s : string) (dt : datetime),
    try_formats s [fmt_Y_m_d; fmt_d_m_Y; fmt_m_d_Y] = Some (Ok dt) ->
    (forall hint, parse_date dateutil_parse s hint = Ok dt) /\
    (forall f, to_page_format pad_year dateutil_parse s f
               = format_for_display pad_year dt (page_format f)).
Proof.
  intros pad o s dt H. cbn [try_formats] in H.
  destruct (strptime_outcome s fmt_Y_m_d) as [[d1 E1]|[e1 E1]];
    rewrite E1 in H.
  - injection H as ->. split.
    + intros hint. unfold parse_date. cbn [try_formats]. rewrite E1.
      destruct (iso_re_match s); reflexivity.
    + intros f. unfold to_page_format, format_for_display. cbn [try_formats].
      destruct (strptime_outcome s fmt_d_m_Y) as [[d2 E2]|[e2 E2]].
      { exfalso. apply (year_first_excludes_short_first dd dm dY "/" s dt d2);
          (discriminate || reflexivity || assumption). }
      destruct (strptime_outcome s fmt_m_d_Y) as [[d3 E3]|[e3 E3]].
      { exfalso. apply (year_first_excludes_short_first dm dd dY "/" s dt d3);
          (discriminate || reflexivity || assumption). }
      rewrite E2, E3, E1. destruct f; reflexivity.
  - assert (Hiso : iso_re_match s = false).
    { destruct (iso_re_match s) eqn:Hiso; [exfalso|reflexivity].
      destruct (strptime_outcome s fmt_d_m_Y) as [[d2 E2]|[e2 E2]].
      { apply (iso_excludes_short_first dd dm dY "/" s d2);
          (discriminate || reflexivity || assumption). }
      rewrite E2 in H.
      destruct (strptime_outcome s fmt_m_d_Y) as [[d3 E3]|[e3 E3]].
      { apply (iso_excludes_short_first dm dd dY "/" s d3);
          (discriminate || reflexivity || assumption). }
      rewrite E3 in H. discriminate H. }
    destruct (strptime_outcome s fmt_d_m_Y) as [[d2 E2]|[e2 E2]];
      rewrite E2 in H.
    + injection H as ->. split.
      * intros hint. unfold parse_date. rewrite Hiso. cbn [try_formats].
        rewrite E1, E2. reflexivity.
      * intros f. unfold to_page_format, format_for_display. cbn [try_formats].
        rewrite E2. destruct f; reflexivity.
    + destruct (strptime_outcome s fmt_m_d_Y) as [[d3 E3]|[e3 E3]];
        rewrite E3 in H; [|discriminate H].
      injection H as ->. split.
      * intros hint. unfold parse_date. rewrite Hiso. cbn [try_formats].
        rewrite E1, E2, E3. reflexivity.
      * intros f. unfold to_page_format, format_for_display. cbn [try_formats].
        rewrite E2, E3. destruct f; reflexivity.
Qed.

Lemma X5_witness :
  to_page_format true dateutil_observed "2025-03-08" DMY
  = format_for_display true (date 2025 3 8) (page_format DMY).
Proof.
  apply (proj2 (X5_page_format_agrees_with_parse_date true dateutil_observed
                  "2025-03-08" (date 2025 3 8) eq_refl)).
Defined.

(** ** Ranges *)

Lemma lex_compare_refl a : lex_compare a a = Eq.
Proof.
  induction a as [|x a IH]; [reflexivity|].
  cbn [lex_compare]. rewrite Z.compare_refl. exact IH.
Qed.

Lemma same_tzinfo_refl t : same_tzinfo t t = true.
Proof. destruct t as [x|]; cbn; [apply Z.eqb_refl|reflexivity]. Qed.

Lemma dt_le_refl a : dt_le a a = Ok true.
Proof.
  unfold dt_le, dt_compare, naive_compare.
  rewrite same_tzinfo_refl, lex_compare_refl. reflexivity.
Qed.

(** X8: the range of [is_date_in_range] contains both of its boundaries
    whenever [start <= end] holds (for naive and for aware values); and on
    naive values membership is kept when the range is widened: a date in
    [start..end] is in every range that starts no later and ends no
    earlier. *)
Theorem X8_range_is_closed_and_monotone :
  forall (dateutil_parse : string -> bool -> result datetime)
         (date_str start_str end_str : string) (d s e : datetime),
    parse_date dateutil_parse date_str None = Ok d ->
    parse_date dateutil_parse start_str None = Ok s ->
    parse_date dateutil_parse end_str None = Ok e ->
    (dt_le s e = Ok true ->
     is_date_in_range dateutil_parse start_str start_str end_str = Ok true /\
     is_date_in_range dateutil_parse end_str start_str end_str = Ok true) /\
    (forall wide_start wide_end s' e',
       parse_date dateutil_parse wide_start None = Ok s' ->
       parse_date dateutil_parse wide_end None = Ok e' ->
       tzinfo d = None -> tzinfo s = None -> tzinfo e = None ->
       tzinfo s' = None -> tzinfo e' = None ->
       naive_le s' s = true -> naive_le e e' = true ->
       is_date_in_range dateutil_parse date_str start_str end_str = Ok true ->
       is_date_in_range dateutil_parse date_str wide_start wide_end = Ok true).
Proof.
  intros o ds ss es d s e Hd Hs He. split.
  - intros Hse. unfold is_date_in_range, parse_range.
    rewrite Hs, He. cbn [bind fst snd]. rewrite !dt_le_refl, Hse. cbn [bind].
    split; reflexivity.
  - intros ws we s' e' Hs' He' Nd Ns Ne Ns' Ne' L1 L2.
    unfold is_date_in_range, parse_range.
    rewrite Hd, Hs, He, Hs', He'. cbn [bind fst snd].
    rewrite (dt_le_naive s d Ns Nd), (dt_le_naive d e Nd Ne),
      (dt_le_naive s' d Ns' Nd), (dt_le_naive d e' Nd Ne'). cbn [bind].
    destruct (naive_le s d) eqn:A; [|discriminate].
    destruct (naive_le d e) eqn:B; [|discriminate].
    intros _. rewrite (naive_le_trans s' s d L1 A), (naive_le_trans d e e' B L2).
    reflexivity.
Qed.

Lemma X8_witness :
  is_date_in_range dateutil_observed "15/02/2025" "2025-01-01" "31/12/2025" = Ok true.
Proof.
  apply (proj2 (X8_range_is_closed_and_monotone dateutil_observed
                  "15/02/2025" "01/02/2025" "28/02/2025"
                  (date 2025 2 15) (date 2025 2 1) (date 2025 2 28)
                  eq_refl eq_refl eq_refl)
           "2025-01-01" "31/12/2025" (date 2025 1 1) (date 2025 12 31)
           eq_refl eq_refl eq_refl eq_refl eq_refl eq_refl eq_refl
           eq_refl eq_refl eq_refl).
Defined.

(** ** What [parse_date] returns *)

(** X9: a value that [parse_date] returns is either the value the
    fallback parser returned for the same text, or a date of the calendar at
    midnight.  So when the fallback parser only returns well-formed values,
    every value of [parse_date] is well-formed. *)
Theorem X9_parse_date_values :
  forall (dateutil_parse : string -> bool -> result datetime)
         (s : string) (hint : option format_hint) (dt : datetime),
    parse_date dateutil_parse s hint = Ok dt ->
    ((valid_datetime dt = true /\ no_time_of_day dt = true) \/
     (exists dayfirst, dateutil_parse s dayfirst = Ok dt)) /\
    ((forall t b r, dateutil_parse t b = Ok r -> valid_datetime r = true) ->
     valid_datetime dt = true).
Proof.
  intros o s hint dt H.
  assert (D : (valid_datetime dt = true /\ no_time_of_day dt = true) \/
              (exists dayfirst, o s dayfirst = Ok dt)).
  { unfold parse_date in H. destruct (iso_re_match s).
    - left. exact (strptime_valid _ _ _ H).
    - destruct (try_formats s _) as [r|] eqn:E.
      + subst r. left. exact (try_formats_valid _ _ _ E).
      + right.
        destruct (match hint with Some h => Ok (is_DMY h) | None => guess_dayfirst s end)
          as [b|e]; cbn [bind] in H; [eauto|discriminate]. }
  split; [exact D|].
  intros Ho. destruct D as [[V _]|[b Hb]]; [exact V|eauto].
Qed.

Lemma X9_witness :
  ((valid_datetime (mkdt 2025 1 1 10 30 0 0 None) = true /\
    no_time_of_day (mkdt 2025 1 1 10 30 0 0 None) = true) \/
   (exists dayfirst,
      dateutil_observed "01/01/2025 10:30" dayfirst = Ok (mkdt 2025 1 1 10 30 0 0 None))) /\
  ((forall t b r, dateutil_observed t b = Ok r -> valid_datetime r = true) ->
   valid_datetime (mkdt 2025 1 1 10 30 0 0 None) = true).
Proof.
  apply (X9_parse_date_values dateutil_observed "01/01/2025 10:30" None
           (mkdt 2025 1 1 10 30 0 0 None) eq_refl).
Defined.

(** ** The texts sent to the site and to the API *)

Lemma format_for_api_day_first pad_year dateutil_parse a b y va vb vy :
  field_value a = Some va -> field_value b = Some vb -> year_value y = Some vy ->
  check_date_fields vy vb va = true -> 1000 <= vy ->
  format_for_api pad_year dateutil_parse (slash_text a b y)
  = Ok (iso_text y (two_digits vb) (two_digits va)).
Proof.
  intros Ha Hb Hy Hc Hv. unfold format_for_api.
  destruct (check_day_month_ok _ _ _ Hc) as [Hd Hm].
  rewrite (parse_date_day_first dateutil_parse a b y va vb vy) by auto.
  cbn [bind]. rewrite strftime_Y_m_d. cbn [year month day date].
  pose proof (year_value_range y vy Hy).
  rewrite render_year_four by lia. rewrite (four_digits_year y vy Hy). reflexivity.
Qed.

(** X10: the two texts that the date filter of the transactions page
    fills in are, for every pair of boundaries, what [format_range_for_api]
    returns (and it raises what that raises).  For a boundary [a/b/YYYY] whose
    day-first reading is a date with a year of 1000 or later, the text is
    [YYYY-bb-aa]: the second field is sent as the month. *)
Theorem X10_date_filter_texts :
  forall (pad_year : bool) (dateutil_parse : string -> bool -> result datetime),
    (forall start_date end_date,
       apply_date_filter_texts pad_year dateutil_parse start_date end_date
       = format_range_for_api pad_year dateutil_parse start_date end_date) /\
    (forall a b y va vb vy a' b' y' va' vb' vy',
       field_value a = Some va -> field_value b = Some vb ->
       year_value y = Some vy ->
       field_value a' = Some va' -> field_value b' = Some vb' ->
       year_value y' = Some vy' ->
       check_date_fields vy vb va = true -> 1000 <= vy ->
       check_date_fields vy' vb' va' = true -> 1000 <= vy' ->
       apply_date_filter_texts pad_year dateutil_parse
         (slash_text a b y) (slash_text a' b' y')
       = Ok (iso_text y (two_digits vb) (two_digits va),
             iso_text y' (two_digits vb') (two_digits va'))).
Proof.
  intros pad o.
  assert (E : forall s e, apply_date_filter_texts pad o s e
                          = format_range_for_api pad o s e).
  { intros s e. unfold apply_date_filter_texts, format_range_for_api, format_for_api.
    destruct (parse_date o s None) as [ds|x]; cbn [bind]; [|reflexivity].
    destruct (parse_date o e None) as [de|x]; reflexivity. }
  split; [exact E|].
  intros a b y va vb vy a' b' y' va' vb' vy' Ha Hb Hy Ha' Hb' Hy' Hc Hv Hc' Hv'.
  rewrite E. unfold format_range_for_api.
  rewrite (format_for_api_day_first pad o a b y va vb vy) by assumption.
  rewrite (format_for_api_day_first pad o a' b' y' va' vb' vy') by assumption.
  reflexivity.
Qed.

Lemma X10_witness :
  apply_date_filter_texts false dateutil_observed
    (slash_text "01" "03" "2025") (slash_text "03" "08" "2025")
  = Ok (iso_text "2025" (two_digits 3) (two_digits 1),
        iso_text "2025" (two_digits 8) (two_digits 3)).
Proof.
  apply (proj2 (X10_date_filter_texts false dateutil_observed)
           "01" "03" "2025" 1 3 2025 "03" "08" "2025" 3 8 2025
           eq_refl eq_refl eq_refl eq_refl eq_refl eq_refl
           eq_refl ltac:(lia) eq_refl ltac:(lia)).
Defined.

(** ** The year-first format with slashes *)

Lemma iso_re_match_year_slash y v rest :
  year_value y = Some v -> iso_re_match (y ++ String "/" rest) = false.
Proof.
  destruct y as [|a [|b [|c [|d [|]]]]]; unfold year_value; try discriminate.
  destruct (digit_of a) eqn:Ea; [|discriminate].
  destruct (digit_of b) eqn:Eb; [|discriminate].
  destruct (digit_of c) eqn:Ec; [|discriminate].
  destruct (digit_of d) eqn:Ed; [|discriminate].
  intros _. unfold iso_re_match. cbn [append re_seq].
  rewrite (digit_of_is_digit _ _ Ea), (digit_of_is_digit _ _ Eb),
    (digit_of_is_digit _ _ Ec), (digit_of_is_digit _ _ Ed).
  reflexivity.
Qed.

(** X11: a text [YYYY/m/d] (month and day on one or two digits) whose
    fields are a date of the calendar parses to that date under every hint:
    ["%Y-%m-%d"], ["%d/%m/%Y"] and ["%m/%d/%Y"] fail on it and ["%Y/%m/%d"]
    takes it; the fallback parser is not called. *)
Theorem X11_year_first_slash :
  forall (dateutil_parse : string -> bool -> result datetime)
         (y m d : string) (vy vm vd : Z) (hint : option format_hint),
    year_value y = Some vy -> field_value m = Some vm -> field_value d = Some vd ->
    check_date_fields vy vm vd = true ->
    parse_date dateutil_parse (sep_text "/" y m d) hint = Ok (date vy vm vd).
Proof.
  intros o y m d vy vm vd hint Hy Hm Hd Hc.
  destruct (check_day_month_ok _ _ _ Hc) as [Hdo Hmo].
  assert (S : re_split (sep_text "/" y m d) = [y; m; d]).
  { unfold sep_text.
    rewrite (re_split_field y) by eauto using year_no_separator.
    rewrite (re_split_field m) by eauto using field_no_separator.
    rewrite (re_split_no_separator d) by eauto using field_no_separator.
    reflexivity. }
  assert (N : forall x1 x2 x3,
             x1 <> dY ->
             exists e, strptime (sep_text "/" y m d)
                         [Dir x1; Lit "/"%char; Dir x2; Lit "/"%char; Dir x3]
                       = Raise (ValueError e)).
  { intros x1 x2 x3 Hx.
    destruct (strptime_outcome (sep_text "/" y m d)
                [Dir x1; Lit "/"%char; Dir x2; Lit "/"%char; Dir x3])
      as [[r E]|[e E]]; [exfalso|eauto].
    apply strptime_three_fields in E; [|reflexivity].
    destruct E as (u1 & u2 & u3 & w1 & w2 & w3 & E & K1 & _).
    rewrite S in E. injection E as <- _ _.
    destruct x1; [congruence| |]; cbn [group_text] in K1;
      exact (short_not_year _ _ K1 Hy). }
  unfold parse_date.
  unfold sep_text at 1. rewrite (iso_re_match_year_slash y vy) by assumption.
  cbn [try_formats].
  assert (E1 : strptime (sep_text "/" y m d) fmt_Y_m_d
               = Raise (ValueError (NoMatch (sep_text "/" y m d)))).
  { apply strptime_no_match_value_error. unfold fmt_Y_m_d, sep_text.
    rewrite (re_match_dY y vy) by assumption. reflexivity. }
  rewrite E1.
  destruct (N dd dm dY ltac:(discriminate)) as [e2 E2].
  destruct (N dm dd dY ltac:(discriminate)) as [e3 E3].
  unfold fmt_d_m_Y, fmt_m_d_Y. rewrite E2, E3.
  unfold strptime, fmt_Ys_m_d, sep_text.
  rewrite (re_match_dY y vy) by assumption. rewrite re_match_lit.
  rewrite (re_match_dm_lit m vm) by (auto; left; reflexivity).
  unfold month_ok in Hmo. rewrite Hmo.
  unfold day_ok in Hdo. pose proof Hdo as Hdo'.
  apply andb_true_iff in Hdo'. rewrite !Z.leb_le in Hdo'.
  rewrite (re_match_dd_end d vd) by (auto; lia).
  cbn [set_group gY gm gd no_groups or_default]. rewrite Hc. reflexivity.
Qed.

Lemma X11_witness :
  parse_date dateutil_observed (sep_text "/" "2025" "3" "8") (Some MDY)
  = Ok (date 2025 3 8).
Proof.
  apply (X11_year_first_slash dateutil_observed "2025" "3" "8" 2025 3 8 (Some MDY)
           eq_refl eq_refl eq_refl eq_refl).
Defined.

(** ** What the detector looks at *)

Lemma scan_elements_readable elements :
  scan_elements elements =
  flat_map (fun text =>
              match text with
              | Some (String c t) => text_matches (String c t)
              | _ => []
              end) (readable elements).
Proof.
  induction elements as [|[[[|c t]|]|e] more IH]; cbn [scan_elements readable flat_map];
    try reflexivity; try exact IH.
  rewrite IH. reflexivity.
Qed.

Lemma dates_found_view page :
  dates_found page =
  flat_map (fun selector =>
              flat_map (fun text =>
                          match text with
                          | Some (String c t) => text_matches (String c t)
                          | _ => []
                          end) (view page selector)) selectors.
Proof.
  unfold dates_found, view. apply flat_map_ext. intros sel.
  destruct (locator_all page sel) as [els|e]; [|reflexivity].
  apply scan_elements_readable.
Qed.

Lemma flat_map_agree {A B : Type} (f g : A -> list B) l :
  (forall a, In a l -> f a = g a) -> flat_map f l = flat_map g l.
Proof.
  induction l as [|a l IH]; intros H; [reflexivity|].
  cbn [flat_map]. rewrite (H a (or_introl eq_refl)), IH; [reflexivity|].
  intros b Hb. apply H. right. exact Hb.
Qed.

(** X12: the detector looks, for each of its six queries, at the texts of
    at most the first five elements, and at none after the first element
    whose [text_content] raises; a query that raises shows it nothing.  Two
    pages that agree on that much give the same hint: in particular a sixth
    element never changes the answer. *)
Theorem X12_detector_reads_five_elements :
  forall (page other : Page),
    (forall selector, In selector selectors -> view page selector = view other selector) ->
    detect_page_date_format page = detect_page_date_format other.
Proof.
  intros p q H. unfold detect_page_date_format.
  rewrite (dates_found_view p), (dates_found_view q).
  f_equal. apply flat_map_agree. intros sel Hin. rewrite (H sel Hin). reflexivity.
Qed.

Lemma X12_witness :
  detect_page_date_format
    (mkPage (fun _ => Ok [Ok None; Ok (Some "due 02/03/2025"); Ok None; Ok None;
                          Ok None; Ok (Some "13/01/2025")]))
  = detect_page_date_format
      (mkPage (fun _ => Ok [Ok None; Ok (Some "due 02/03/2025"); Ok None; Ok None;
                            Ok None])).
Proof.
  apply X12_detector_reads_five_elements. intros selector _. reflexivity.
Defined.

(** ** Texts that [to_page_format] leaves to the fallback parser *)

Lemma year_first_text_value_error y m d vy vm vd x1 x2 x3 c :
  year_value y = Some vy -> field_value m = Some vm -> field_value d = Some vd ->
  x1 <> dY -> is_separator c = true ->
  exists e, strptime (sep_text "/" y m d) [Dir x1; Lit c; Dir x2; Lit c; Dir x3]
            = Raise (ValueError e).
Proof.
  intros Hy Hm Hd Hx Hc.
  destruct (strptime_outcome (sep_text "/" y m d)
              [Dir x1; Lit c; Dir x2; Lit c; Dir x3]) as [[r E]|[e E]];
    [exfalso|eauto].
  apply strptime_three_fields in E; [|assumption].
  destruct E as (u1 & u2 & u3 & w1 & w2 & w3 & E & K1 & _).
  unfold sep_text in E.
  rewrite (re_split_field y) in E by eauto using year_no_separator.
  injection E as <- _.
  destruct x1; [congruence| |]; cbn [group_text] in K1;
    exact (short_not_year _ _ K1 Hy).
Qed.

(** X13: [to_page_format] has neither ["%Y/%m/%d"] nor a format with
    dots.  A text [YYYY/m/d] (which [parse_date] parses by itself) and a text
    [a.b.YYYY] fail its five formats and go to the fallback parser with
    [dayfirst] set for the target DMY only; the value of that parser is
    written in the target format, and if it raises the text comes back
    unchanged. *)
Theorem X13_page_format_leaves_to_fallback :
  forall (pad_year : bool) (dateutil_parse : string -> bool -> result datetime)
         (f : format_hint),
    (forall y m d vy vm vd,
       year_value y = Some vy -> field_value m = Some vm -> field_value d = Some vd ->
       to_page_format pad_year dateutil_parse (sep_text "/" y m d) f
       = match dateutil_parse (sep_text "/" y m d) (is_DMY f) with
         | Ok dt => strftime pad_year dt (page_format f)
         | Raise _ => sep_text "/" y m d
         end) /\
    (forall a b y va vb vy,
       field_value a = Some va -> field_value b = Some vb -> year_value y = Some vy ->
       to_page_format pad_year dateutil_parse (sep_text "." a b y) f
       = match dateutil_parse (sep_text "." a b y) (is_DMY f) with
         | Ok dt => strftime pad_year dt (page_format f)
         | Raise _ => sep_text "." a b y
         end).
Proof.
  intros pad o f. split.
  - intros y m d vy vm vd Hy Hm Hd.
    destruct (year_first_text_value_error y m d vy vm vd dd dm dY "/" Hy Hm Hd)
      as [e1 E1]; [discriminate|reflexivity|].
    destruct (year_first_text_value_error y m d vy vm vd dm dd dY "/" Hy Hm Hd)
      as [e2 E2]; [discriminate|reflexivity|].
    destruct (year_first_text_value_error y m d vy vm vd dd dm dY "-" Hy Hm Hd)
      as [e4 E4]; [discriminate|reflexivity|].
    destruct (year_first_text_value_error y m d vy vm vd dm dd dY "-" Hy Hm Hd)
      as [e5 E5]; [discriminate|reflexivity|].
    assert (E3 : strptime (sep_text "/" y m d) fmt_Y_m_d
                 = Raise (ValueError (NoMatch (sep_text "/" y m d)))).
    { apply strptime_no_match_value_error. unfold fmt_Y_m_d, sep_text.
      rewrite (re_match_dY y vy) by assumption. reflexivity. }
    unfold to_page_format. cbn [try_formats].
    unfold fmt_d_m_Y, fmt_m_d_Y, fmt_d_m_Y_dash, fmt_m_d_Y_dash.
    rewrite E1, E2, E3, E4, E5.
    destruct (o _ _); destruct f; reflexivity.
  - intros a b y va vb vy Ha Hb Hy.
    unfold to_page_format. cbn [try_formats].
    rewrite (strptime_no_match_value_error _ fmt_d_m_Y)
      by (apply (re_match_other_separator dd a va); auto; discriminate).
    rewrite (strptime_no_match_value_error _ fmt_m_d_Y)
      by (apply (re_match_other_separator dm a va); auto; discriminate).
    rewrite (strptime_no_match_value_error _ fmt_Y_m_d)
      by (apply (re_match_dY_field a va); auto).
    rewrite (strptime_no_match_value_error _ fmt_d_m_Y_dash)
      by (apply (re_match_other_separator dd a va); auto; discriminate).
    rewrite (strptime_no_match_value_error _ fmt_m_d_Y_dash)
      by (apply (re_match_other_separator dm a va); auto; discriminate).
    destruct (o _ _); destruct f; reflexivity.
Qed.

Lemma X13_witness :
  to_page_format true dateutil_observed (sep_text "/" "2025" "03" "08") MDY
  = match dateutil_observed (sep_text "/" "2025" "03" "08") (is_DMY MDY) with
    | Ok dt => strftime true dt (page_format MDY)
    | Raise _ => sep_text "/" "2025" "03" "08"
    end.
Proof.
  apply (proj1 (X13_page_format_leaves_to_fallback true dateutil_observed MDY)
           "2025" "03" "08" 2025 3 8 eq_refl eq_refl eq_refl).
Defined.
